(** * data-queary: the query generation, validation and execution pipeline

    A shallow embedding of [app.py] and [openai_service.py].

    Text (queries, generated code) is a sequence of code points below 256,
    written [text]: every statement about a [text] is a statement about the
    Python strings of that range, on which [str.lower], [str.isspace] and
    [re.IGNORECASE] are as embedded here.  Names of bindings, dictionary keys
    and messages are [string]s.  Python's [re], [exec] and [json] are library code: the part of
    [re] that the denylist uses is embedded as a small backtracking matcher,
    [exec] and [json.loads] are parameters of the sections that call them. *)

From Stdlib Require Import String Ascii List ZArith NArith Bool Lia.
From stdpp Require Import base option list gmap strings.
Import ListNotations.

Set Warnings "-register-all,-clear-no-such-hyp".

Local Open Scope string_scope.
Local Open Scope list_scope.

(** ** Text *)

Definition text := list ascii.

Definition txt (s : string) : text := list_ascii_of_string s.

(** Literals that hold Python's double quote are written with a backquote in
    its place (no source literal holds a backquote). *)
Definition txtq (s : string) : text :=
  map (fun c => if Ascii.eqb c "`"%char then "034"%char else c) (list_ascii_of_string s).

(** [str.isspace] on one code point below 256; [\s] of a [str] pattern is the
    same predicate. *)
Definition is_space (c : ascii) : bool :=
  let n := N_of_ascii c in
  ((9 <=? n) && (n <=? 13) || (28 <=? n) && (n <=? 32) || (n =? 133) || (n =? 160))%N.

(** [str.lower] on one code point below 256. *)
Definition lower_char (c : ascii) : ascii :=
  let n := N_of_ascii c in
  if ((65 <=? n) && (n <=? 90) || (192 <=? n) && (n <=? 222) && negb (n =? 215))%N
  then ascii_of_N (n + 32) else c.

Definition lower (s : text) : text := map lower_char s.

Fixpoint lstrip (s : text) : text :=
  match s with
  | c :: s' => if is_space c then lstrip s' else s
  | [] => []
  end.

Definition rstrip (s : text) : text := rev (lstrip (rev s)).

(** [str.strip()] *)
Definition strip (s : text) : text := rstrip (lstrip s).

Definition ascii_eqb (a b : ascii) : bool := (N_of_ascii a =? N_of_ascii b)%N.

(** [s.startswith(p)], returning what follows the prefix. *)
Fixpoint after_prefix (p s : text) : option text :=
  match p, s with
  | [], _ => Some s
  | a :: p', b :: s' => if ascii_eqb a b then after_prefix p' s' else None
  | _ :: _, [] => None
  end.

(** [k in s] on strings: substring test. *)
Fixpoint contains (s k : text) : bool :=
  match after_prefix k s with
  | Some _ => true
  | None => match s with
            | [] => false
            | _ :: s' => contains s' k
            end
  end.

(** ** The fragment of [re] used by the denylist *)

Module Re.

Inductive atom : Type :=
| Lit (p : text)            (* literal characters *)
| Spaces0                   (* \s* *)
| Spaces1                   (* \s+ *)
| NotAhead (alts : list text).  (* (?!a|b|c) *)

(** A pattern is a sequence of atoms. *)
Definition regex := list atom.

(** Literal prefix under [re.IGNORECASE]. *)
Fixpoint after_lit (p s : text) : option text :=
  match p, s with
  | [], _ => Some s
  | a :: p', b :: s' =>
      if ascii_eqb (lower_char a) (lower_char b) then after_lit p' s' else None
  | _ :: _, [] => None
  end.

Definition looks_at (s : text) (alt : text) : bool :=
  match after_lit alt s with Some _ => true | None => false end.

(** [\s*] followed by the continuation [k]: every split is tried. *)
Fixpoint spaces_then (k : text -> bool) (s : text) : bool :=
  k s || match s with
         | c :: s' => is_space c && spaces_then k s'
         | [] => false
         end.

(** The pattern matches a prefix of [s]. *)
Fixpoint match_here (r : regex) (s : text) {struct r} : bool :=
  match r with
  | [] => true
  | Lit p :: r' =>
      match after_lit p s with
      | Some rest => match_here r' rest
      | None => false
      end
  | Spaces0 :: r' => spaces_then (match_here r') s
  | Spaces1 :: r' =>
      match s with
      | c :: s' => is_space c && spaces_then (match_here r') s'
      | [] => false
      end
  | NotAhead alts :: r' => negb (existsb (looks_at s) alts) && match_here r' s
  end.

(** [re.search(r, s, re.IGNORECASE)] as a truth value. *)
Fixpoint search (r : regex) (s : text) : bool :=
  match_here r s || match s with
                    | [] => false
                    | _ :: s' => search r s'
                    end.

End Re.

(** ** app.py: the safety validator *)

Definition allowed_modules : list text := [txt "pandas"; txt "numpy"; txt "datetime"].

Definition dangerous_patterns : list Re.regex :=
  [ [Re.Lit (txt "import"); Re.Spaces1; Re.NotAhead allowed_modules];
    [Re.Lit (txt "from"); Re.Spaces1; Re.NotAhead allowed_modules];
    [Re.Lit (txt "open"); Re.Spaces0; Re.Lit (txt "(")];
    [Re.Lit (txt "exec"); Re.Spaces0; Re.Lit (txt "(")];
    [Re.Lit (txt "eval"); Re.Spaces0; Re.Lit (txt "(")];
    [Re.Lit (txt "__import__")];
    [Re.Lit (txt "getattr")];
    [Re.Lit (txt "setattr")];
    [Re.Lit (txt "delattr")];
    [Re.Lit (txt "globals"); Re.Spaces0; Re.Lit (txt "(")];
    [Re.Lit (txt "locals"); Re.Spaces0; Re.Lit (txt "(")];
    [Re.Lit (txt "dir"); Re.Spaces0; Re.Lit (txt "(")];
    [Re.Lit (txt "vars"); Re.Spaces0; Re.Lit (txt "(")];
    [Re.Lit (txt ".system")];
    [Re.Lit (txt "os.")];
    [Re.Lit (txt "subprocess")];
    [Re.Lit (txt "shutil")];
    [Re.Lit (txt "pickle")] ].

(** The [for] loop of [is_safe_code]: [return False] at the first pattern that
    matches, [return True] after the last. *)
Fixpoint scan_patterns (ps : list Re.regex) (code : text) : bool :=
  match ps with
  | [] => true
  | p :: ps' => if Re.search p code then false else scan_patterns ps' code
  end.

Definition is_safe_code (code : text) : bool := scan_patterns dangerous_patterns code.

(** The pattern at which the loop returns, if any. *)
Fixpoint first_match (ps : list Re.regex) (code : text) : option Re.regex :=
  match ps with
  | [] => None
  | p :: ps' => if Re.search p code then Some p else first_match ps' code
  end.

(** The first word of each pattern of the denylist. *)
Definition blocked_words : list text :=
  [ txt "import"; txt "from"; txt "open"; txt "exec"; txt "eval"; txt "__import__";
    txt "getattr"; txt "setattr"; txt "delattr"; txt "globals"; txt "locals"; txt "dir";
    txt "vars"; txt ".system"; txt "os."; txt "subprocess"; txt "shutil"; txt "pickle" ].

(** ** openai_service.py: the local pattern translator *)

Record pattern : Type := Pattern {
  keywords : list text;
  code : text;
  description : string
}.

Definition monthly_code : text :=
  txtq "result = df.groupby(df[`date`].dt.to_period(`M`))[`sales`].sum().reset_index()"
  ++ ["010"%char] ++ txtq "result[`date`] = result[`date`].astype(str)".

Definition patterns : list pattern :=
  [ Pattern [txt "sales"; txt "by"; txt "region"]
      (txtq "result = df.groupby(`region`)[`sales`].sum().reset_index()")
      "Total sales by region";
    Pattern [txt "sales"; txt "month"; txt "by"]
      monthly_code
      "Sales by month";
    Pattern [txt "average"; txt "sales"; txt "region"]
      (txtq "result = df.groupby(`region`)[`sales`].mean().reset_index()")
      "Average sales by region";
    Pattern [txt "top"; txt "highest"; txt "sales"]
      (txtq "result = df.nlargest(10, `sales`)[[`date`, `region`, `sales`]]")
      "Top 10 highest sales";
    Pattern [txt "sales"; txt "july"]
      (txtq "result = df[df[`date`].dt.month == 7]")
      "Sales in July";
    Pattern [txt "sales"; txt "2023"]
      (txtq "result = df[df[`date`].dt.year == 2023]")
      "Sales in 2023";
    Pattern [txt "total"; txt "sales"]
      (txtq "result = df[`sales`].sum()")
      "Total sales";
    Pattern [txt "trend"; txt "sales"]
      monthly_code
      "Sales trends over time";
    Pattern [txt "count"; txt "records"]
      (txt "result = len(df)")
      "Total number of records";
    Pattern [txt "average"; txt "daily"; txt "sales"]
      (txtq "result = df.groupby(`date`)[`sales`].sum().mean()")
      "Average daily sales" ].

Definition default_code : text := txt "result = df.head(10)".

(** [sum(1 for keyword in pattern['keywords'] if keyword in query_lower)] *)
Fixpoint count_present (query_lower : text) (ks : list text) : nat :=
  match ks with
  | [] => 0
  | keyword :: ks' =>
      (if contains query_lower keyword then 1 else 0) + count_present query_lower ks'
  end.

Definition matches (query_lower : text) (p : pattern) : nat :=
  count_present query_lower (keywords p).

(** All the keywords of an entry occur in the text. *)
Definition all_present (s : text) (p : pattern) : bool :=
  forallb (contains s) (keywords p).

(** The loop state: [(best_match, max_matches)]. *)
Definition best_step (query_lower : text) (st : option pattern * nat) (p : pattern)
  : option pattern * nat :=
  let m := matches query_lower p in
  if (snd st <? m)%nat && (0 <? m)%nat then (Some p, m) else st.

Definition find_best (query_lower : text) (ps : list pattern) (st : option pattern * nat)
  : option pattern * nat :=
  fold_left (best_step query_lower) ps st.

(** Returns the pair [(code, error)]; [columns] is not read. *)
Definition parse_query_locally (query : text) (columns : list string)
  : text * option string :=
  let query_lower := strip (lower query) in
  match fst (find_best query_lower patterns (None, 0%nat)) with
  | Some best_match => (code best_match, None)
  | None => (default_code, None)
  end.

(** A keyword that is not empty and neither begins nor ends with white
    space. *)
Definition solid (k : text) : bool :=
  match k with
  | [] => false
  | c :: _ => negb (is_space c) && negb (is_space (List.last k c))
  end.

(** ** openai_service.py: the code generation coordinator *)

(** A value decoded by [json.loads]; a dict is the list of its items, keys
    distinct.  [JNull] is Python's [None]. *)
Inductive pyjson : Type :=
| JNull
| JBool (b : bool)
| JNum (literal : text)
| JStr (s : text)
| JArr (items : list pyjson)
| JObj (items : list (text * pyjson)).

Definition text_eqb (a b : text) : bool :=
  match after_prefix a b with
  | Some [] => true
  | _ => false
  end.

Definition is_code_str (v : pyjson) : bool :=
  match v with
  | JStr s => text_eqb (txt "code") s
  | _ => false
  end.

Fixpoint dict_get (k : text) (items : list (text * pyjson)) : option pyjson :=
  match items with
  | [] => None
  | (k', v) :: rest => if text_eqb k k' then Some v else dict_get k rest
  end.

(** ['code' in result]; [None] when the operand is not a container and the
    test raises [TypeError]. *)
Definition code_in (result : pyjson) : option bool :=
  match result with
  | JObj items => Some (match dict_get (txt "code") items with Some _ => true | None => false end)
  | JArr items => Some (existsb is_code_str items)
  | JStr s => Some (contains s (txt "code"))
  | JNull | JBool _ | JNum _ => None
  end.

(** [result['code']]; [None] when the subscript raises. *)
Definition code_of (result : pyjson) : option pyjson :=
  match result with
  | JObj items => dict_get (txt "code") items
  | _ => None
  end.

(** What the remote call and the read of [response.choices[0].message.content]
    come to: an exception, or the content, which may be [None]. *)
Inductive reply : Type :=
| CallRaises
| Content (content : option text).

Section Coordinator.

(** [openai and OPENAI_API_KEY] are both truthy. *)
Variable configured : bool.
(** [openai.chat.completions.create] on the prompt built from the query and
    the columns. *)
Variable create : text -> list string -> reply.
(** [json.loads]; [None] when it raises. *)
Variable json_loads : text -> option pyjson.

(** Returns the pair [(code, error)]. *)
Definition generate_pandas_code (query : text) (columns : list string)
  : pyjson * option string :=
  if negb configured then
    let '(c, e) := parse_query_locally query columns in (JStr c, e)
  else
    let fallback := let '(c, e) := parse_query_locally query columns in (JStr c, e) in
    match create query columns with
    | CallRaises => fallback
    | Content None => (JNull, Some "OpenAI response content is empty")
    | Content (Some content) =>
        match json_loads content with
        | None => fallback
        | Some result =>
            match code_in result with
            | None => fallback
            | Some false => (JNull, Some "OpenAI response does not contain 'code' field")
            | Some true =>
                match code_of result with
                | Some c => (c, None)
                | None => fallback
                end
            end
        end
    end.

End Coordinator.

(** ** The objects the executed code works on *)

Inductive cell : Type :=
| CInt (z : Z)
| CStr (s : string)
| CDate (year month day : Z).

(** A [pd.DataFrame]: column labels and, row by row, one cell per column. *)
Record frame : Type := Frame {
  columns : list string;
  rows : list (list cell)
}.

(** DataFrames are shared objects: a value refers to one by its place in the
    store. *)
Definition loc := nat.

Inductive pyval : Type :=
| VFrame (l : loc)                                       (* pd.DataFrame *)
| VSeries (data : list (cell * cell)) (name : option string)  (* pd.Series *)
| VInt (z : Z)
| VFloat (literal : string)
| VStr (s : string)
| VBool (b : bool)
| VModule (name : string)
| VBuiltin (name : string)
| VOther (str : string).   (* an object of any other class, with its str() *)

(** An object that the executed code shares with the host: a module, a
    class, a DataFrame, or the namespace of the builtins. *)
Inductive target : Type :=
| TModule (name : string)
| TClass (name : string)
| TObject (l : loc)
| TBuiltins.

(** An attribute that executed code has rebound on a shared object, as
    [pd.DataFrame = str] or [df.to_dict = 5] do. *)
Record patch : Type := Patch {
  patched : target;
  attribute : string;
  bound_to : pyval
}.

(** The state that outlives a call: the DataFrames, the attributes rebound on
    shared objects, and what [str(datetime.datetime.now())] returns at this
    moment, which stands for every input from outside the process. *)
Record heap : Type := Heap {
  frames : list frame;
  patches : list patch;
  now : string
}.

#[global] Instance heap_lookup : Lookup nat frame heap := fun l h => frames h !! l.

(** A new DataFrame is put at the end of the store. *)
Definition alloc (h : heap) (fr : frame) : heap :=
  Heap (frames h ++ [fr]) (patches h) (now h).

(** An update of a DataFrame in place. *)
Definition set_frame (h : heap) (l : loc) (fr : frame) : heap :=
  Heap (<[l := fr]> (frames h)) (patches h) (now h).

Definition add_patch (h : heap) (p : patch) : heap :=
  Heap (frames h) (patches h ++ [p]) (now h).

(** The moment changes between two calls. *)
Definition at_time (t : string) (h : heap) : heap :=
  Heap (frames h) (patches h) t.

(** A raised exception: whether its class derives from [Exception], and
    [str(e)]; an exception whose [str()] itself raises is not modelled. *)
Inductive exn : Type :=
| Exn (is_Exception : bool) (message : string).

(** The end of a run of code: the globals and the store it leaves. *)
Inductive run : Type :=
| Completed (ns : gmap string pyval) (h : heap)
| Raises (e : exn) (h : heap).

Definition heap_of (r : run) : heap :=
  match r with
  | Completed _ h => h
  | Raises _ h => h
  end.

(** An interpreter of code in given globals and store; [None] when no end of
    the run is modelled.  The store holds all that a run can read or change
    besides its globals. *)
Definition interpreter := text -> gmap string pyval -> heap -> option run.

(** The names of the [builtins] module that the interpreted fragment below
    calls; the module of a host has many more, and the properties of name
    lookup are stated for any table. *)
Definition builtins : gmap string pyval :=
  list_to_map
    [ ("len", VBuiltin "len"); ("open", VBuiltin "open");
      ("__import__", VBuiltin "__import__"); ("str", VBuiltin "str");
      ("print", VBuiltin "print"); ("getattr", VBuiltin "getattr") ].

(** [exec(code, globals)] first inserts, under the key [__builtins__], a
    reference to the namespace of the builtins module into a globals dict that
    has no such key; [VModule "builtins"] stands for that namespace. *)
Definition exec_globals (ns : gmap string pyval) : gmap string pyval :=
  match ns !! "__builtins__" with
  | Some _ => ns
  | None => <["__builtins__" := VModule "builtins"]> ns
  end.

Definition py_exec (run_code : interpreter) (code : text) (ns : gmap string pyval) (h : heap)
  : option run :=
  run_code code (exec_globals ns) h.

(** Name lookup at module level: the globals, then the builtins they name,
    [host_builtins] being the content of the host's builtins module. *)
Definition resolve (host_builtins : gmap string pyval) (ns : gmap string pyval) (x : string)
  : option pyval :=
  match ns !! x with
  | Some v => Some v
  | None =>
      match ns !! "__builtins__" with
      | Some (VModule m) => if String.eqb m "builtins" then host_builtins !! x else None
      | _ => None
      end
  end.

(** ** app.py: the sandboxed executor *)

(** A Python dict as the list of its items in insertion order: setting a key
    that is present replaces its value in place. *)
Fixpoint dict_set {K V : Type} `{EqDecision K} (k : K) (v : V) (d : list (K * V))
  : list (K * V) :=
  match d with
  | [] => [(k, v)]
  | (k', v') :: d' => if decide (k = k') then (k, v) :: d' else (k', v') :: dict_set k v d'
  end.

Definition dict_of_items {K V : Type} `{EqDecision K} (items : list (K * V)) : list (K * V) :=
  fold_left (fun d kv => dict_set (fst kv) (snd kv) d) items [].

#[global] Instance cell_eq_dec : EqDecision cell.
Proof. solve_decision. Defined.

(** [result.to_dict('records')] *)
Definition to_dict_records (fr : frame) : list (list (string * cell)) :=
  map (fun row => dict_of_items (zip (columns fr) row)) (rows fr).

(** [result.to_dict()] of a Series *)
Definition series_to_dict (data : list (cell * cell)) : list (cell * cell) :=
  dict_of_items data.

(** The dict returned on success, by its ['type']. *)
Inductive outcome : Type :=
| Dataframe (data : list (list (string * cell))) (cols : list string)
| Series (data : list (cell * cell)) (name : option string)
| Scalar (data : pyval)
| Other (data : string).

(** [str(result)] of a value that is none of the classified kinds; the
    location part of a module's or function's rendering is left out. *)
Definition py_str (v : pyval) : string :=
  match v with
  | VModule n => "<module '" +:+ n +:+ "'>"
  | VBuiltin n => "<built-in function " +:+ n +:+ ">"
  | VOther s => s
  | _ => ""
  end.

(** The [isinstance] chain; [None] for a reference to no object. *)
Definition classify (h : heap) (result : pyval) : option outcome :=
  match result with
  | VFrame l =>
      match h !! l with
      | Some fr => Some (Dataframe (to_dict_records fr) (columns fr))
      | None => None
      end
  | VSeries data name => Some (Series (series_to_dict data) name)
  | VInt _ | VFloat _ | VStr _ | VBool _ => Some (Scalar result)
  | VModule _ | VBuiltin _ | VOther _ => Some (Other (py_str result))
  end.

(** What the conversion of the result comes to: the dict, or an exception
    of a class deriving from [Exception], with its [str()]. *)
Inductive conversion : Type :=
| Converted (o : outcome)
| ConversionRaises (message : string).

(** The conversion in the state that the run has left.  With no attribute
    rebound it is the [isinstance] chain.  With the [to_dict] of the result
    itself rebound to an int, and nothing else rebound, the call
    [result.to_dict('records')] raises.  In any other state no conversion is
    modelled. *)
Definition convert (h : heap) (result : pyval) : option conversion :=
  match patches h with
  | [] => option_map Converted (classify h result)
  | [Patch (TObject l') name (VInt _)] =>
      match result with
      | VFrame l =>
          if Nat.eqb l l' && String.eqb name "to_dict" then
            match h !! l with
            | Some _ => Some (ConversionRaises "'int' object is not callable")
            | None => None
            end
          else None
      | _ => None
      end
  | _ => None
  end.

(** The handler [except Exception as e] and [str(e)] read the builtins: they
    are modelled when no name of the builtins has been rebound. *)
Definition builtins_intact (h : heap) : bool :=
  forallb (fun p => match patched p with TBuiltins => false | _ => true end) (patches h).

(** What a call of [execute_pandas_code] comes to: the returned pair
    [(result, error)], or an exception that [except Exception] lets through. *)
Inductive ret : Type :=
| Return (result : option outcome) (error : option string)
| Escapes (e : exn).

Definition unsafe_message : string := "Generated code contains unsafe operations".
Definition no_result_message : string := "Generated code did not produce a 'result' variable".
Definition exec_error_message (msg : string) : string := "Error executing code: " +:+ msg.

(** The dict literal bound to [namespace]. *)
Definition namespace (df : loc) : gmap string pyval :=
  <["df" := VFrame df]> (<["pd" := VModule "pandas"]> (<["datetime" := VModule "datetime"]> ∅)).

Section Executor.

Variable run_code : interpreter.

(** [df] is the DataFrame object itself, passed by reference. *)
Definition execute_pandas_code (code : text) (df : loc) (h : heap) : option (ret * heap) :=
  if negb (is_safe_code code) then Some (Return None (Some unsafe_message), h)
  else
    match py_exec run_code code (namespace df) h with
    | None => None
    | Some (Raises (Exn true msg) h') =>
        if builtins_intact h'
        then Some (Return None (Some (exec_error_message msg)), h')
        else None
    | Some (Raises (Exn false msg) h') =>
        if builtins_intact h' then Some (Escapes (Exn false msg), h') else None
    | Some (Completed ns h') =>
        match ns !! "result" with
        | Some result =>
            match convert h' result with
            | Some (Converted o) => Some (Return (Some o) None, h')
            | Some (ConversionRaises msg) =>
                Some (Return None (Some (exec_error_message msg)), h')
            | None => None
            end
        | None => Some (Return None (Some no_result_message), h')
        end
    end.

End Executor.

(** ** app.py: the [/ask] route *)

Inductive response : Type :=
| Success (result : option outcome) (generated_code : text) (query : text)
| Error (status : nat) (error : string)
| Uncaught (e : exn).

(** [if error:] *)
Definition truthy (error : option string) : bool :=
  match error with
  | Some s => negb (String.eqb s "")
  | None => false
  end.

Section Ask.

Variable configured : bool.
Variable create : text -> list string -> reply.
Variable json_loads : text -> option pyjson.
Variable run_code : interpreter.

(** [sales_data] is the module global: [None] when the load failed, else the
    DataFrame object.  [query] is [data['query']], [None] when the body has
    no such key. *)
Definition ask (sales_data : option loc) (query : option text) (h : heap)
  : option (response * heap) :=
  match query with
  | None => Some (Error 400 "No query provided", h)
  | Some q =>
      let query := strip q in
      match query with
      | [] => Some (Error 400 "Empty query provided", h)
      | _ :: _ =>
          match sales_data with
          | None => Some (Error 500 "Sales data not available", h)
          | Some df =>
              match h !! df with
              | None => None
              | Some fr =>
                  let '(c, error) :=
                    generate_pandas_code configured create json_loads query (columns fr) in
                  if truthy error then
                    Some (Error 500 ("Failed to generate code: " +:+ default "" error), h)
                  else
                    match c with
                    | JStr code =>
                        match execute_pandas_code run_code code df h with
                        | None => None
                        | Some (Escapes e, h') => Some (Uncaught e, h')
                        | Some (Return result exec_error, h') =>
                            if truthy exec_error then
                              Some (Error 500 (default "" exec_error), h')
                            else Some (Success result code query, h')
                        end
                    | _ => Some (Error 500 "Internal server error", h)
                    end
              end
          end
      end
  end.

End Ask.

(** The body of the request as [request.get_json()] gives it: the call
    raises, or returns the decoded value. *)
Inductive request : Type :=
| BadJson
| Body (data : pyjson).

Definition is_query_str (v : pyjson) : bool :=
  match v with
  | JStr s => text_eqb (txt "query") s
  | _ => false
  end.

(** ['query' not in data]; [None] when the test raises [TypeError]. *)
Definition query_absent (data : pyjson) : option bool :=
  match data with
  | JObj items => Some (match dict_get (txt "query") items with Some _ => false | None => true end)
  | JArr items => Some (negb (existsb is_query_str items))
  | JStr s => Some (negb (contains s (txt "query")))
  | JNull | JBool _ | JNum _ => None
  end.

Section Request.

Variable configured : bool.
Variable create : text -> list string -> reply.
Variable json_loads : text -> option pyjson.
Variable run_code : interpreter.
(** The number that a literal denotes is not zero. *)
Variable nonzero : text -> bool.

(** [not data] *)
Definition falsy (data : pyjson) : bool :=
  match data with
  | JNull => true
  | JBool b => negb b
  | JNum literal => negb (nonzero literal)
  | JStr s => match s with [] => true | _ :: _ => false end
  | JArr items => match items with [] => true | _ :: _ => false end
  | JObj items => match items with [] => true | _ :: _ => false end
  end.

(** The route from the body of the request: the lines up to
    [data['query'].strip()], then [ask].  Every exception of these lines is
    caught by the route's [except Exception]. *)
Definition ask_request (sales_data : option loc) (body : request) (h : heap)
  : option (response * heap) :=
  match body with
  | BadJson => Some (Error 500 "Internal server error", h)
  | Body data =>
      if falsy data then ask configured create json_loads run_code sales_data None h
      else
        match query_absent data with
        | None => Some (Error 500 "Internal server error", h)
        | Some true => ask configured create json_loads run_code sales_data None h
        | Some false =>
            match data with
            | JObj items =>
                match dict_get (txt "query") items with
                | Some (JStr q) =>
                    ask configured create json_loads run_code sales_data (Some q) h
                | _ => Some (Error 500 "Internal server error", h)
                end
            | _ => Some (Error 500 "Internal server error", h)
            end
        end
  end.

End Request.

(** ** A fragment of Python, interpreted

    Enough statements to run code through [execute_pandas_code] on concrete
    inputs.  Names are looked up with [resolve] in the table [builtins];
    DataFrames live in the store and are updated in place. *)

Module Fragment.

Inductive expr : Type :=
| EName (x : string)                (* x *)
| ECall (f : string) (arg : expr)   (* f(arg) *)
| EHead (e : expr) (n : nat)        (* e.head(n) *)
| ENow.                             (* str(datetime.datetime.now()) *)

Inductive stmt : Type :=
| SAssign (x : string) (e : expr)   (* x = e *)
| SDropAll (x : string)             (* x.drop(x.index, inplace=True) *)
| SSetAttr (x : string) (name : string) (z : Z)   (* x.name = z *)
| SImport (modules : list string)   (* import m1, m2 *)
| SPass.                            (* pass *)

(** The concrete syntax of the fragment, line by line. *)
Definition syntax : list (text * stmt) :=
  [ (txt "result = df", SAssign "result" (EName "df"));
    (txt "result = len(df)", SAssign "result" (ECall "len" (EName "df")));
    (txt "result = df.head(10)", SAssign "result" (EHead (EName "df") 10));
    (txt "n = len(df)", SAssign "n" (ECall "len" (EName "df")));
    (txt "result = str(datetime.datetime.now())", SAssign "result" ENow);
    (txt "df.drop(df.index, inplace=True)", SDropAll "df");
    (txt "df.to_dict = 5", SSetAttr "df" "to_dict" 5);
    (txt "import numpy, os", SImport ["numpy"; "os"]);
    (txt "pass", SPass) ].

Fixpoint parse_line (table : list (text * stmt)) (line : text) : option stmt :=
  match table with
  | [] => None
  | (l, s) :: table' => if text_eqb l line then Some s else parse_line table' line
  end.

(** [code.split('\n')] *)
Fixpoint lines (cur : text) (s : text) : list text :=
  match s with
  | [] => [rev cur]
  | c :: s' => if ascii_eqb c "010"%char then rev cur :: lines [] s' else lines (c :: cur) s'
  end.

Fixpoint parse_lines (ls : list text) : option (list stmt) :=
  match ls with
  | [] => Some []
  | l :: ls' =>
      match parse_line syntax l, parse_lines ls' with
      | Some s, Some ss => Some (s :: ss)
      | _, _ => None
      end
  end.

Definition parse (code : text) : option (list stmt) := parse_lines (lines [] code).

(** A step ends in a value, in an exception, or outside the fragment. *)
Inductive res (A : Type) : Type :=
| Val (a : A)
| Exc (e : exn)
| Stuck.
Arguments Val {A} a.
Arguments Exc {A} e.
Arguments Stuck {A}.

(** A name bound neither in the globals nor in [builtins] is outside the
    fragment: the host may have it as a builtin. *)
Definition lookup_name (ns : gmap string pyval) (x : string) : res pyval :=
  match resolve builtins ns x with
  | Some v => Val v
  | None => Stuck
  end.

(** The value is the builtin function, or the module, of that name. *)
Definition is_builtin (n : string) (v : pyval) : bool :=
  match v with
  | VBuiltin m => String.eqb m n
  | _ => false
  end.

Definition is_module (n : string) (v : pyval) : bool :=
  match v with
  | VModule m => String.eqb m n
  | _ => false
  end.

Fixpoint eval (ns : gmap string pyval) (h : heap) (e : expr) : res (pyval * heap) :=
  match e with
  | EName x =>
      match lookup_name ns x with
      | Val v => Val (v, h)
      | Exc e => Exc e
      | Stuck => Stuck
      end
  | ECall f arg =>
      match lookup_name ns f with
      | Val fv =>
          if is_builtin "len" fv then
            match eval ns h arg with
            | Val (VFrame l, h') =>
                match h' !! l with
                | Some fr => Val (VInt (Z.of_nat (length (rows fr))), h')
                | None => Stuck
                end
            | Val _ => Stuck
            | Exc e => Exc e
            | Stuck => Stuck
            end
          else Stuck
      | Exc e => Exc e
      | Stuck => Stuck
      end
  | EHead e n =>
      match eval ns h e with
      | Val (VFrame l, h') =>
          match h' !! l with
          | Some fr =>
              Val (VFrame (length (frames h')),
                   alloc h' (Frame (columns fr) (take n (rows fr))))
          | None => Stuck
          end
      | Val _ => Stuck
      | Exc e => Exc e
      | Stuck => Stuck
      end
  | ENow =>
      match lookup_name ns "str", lookup_name ns "datetime" with
      | Val sv, Val dv =>
          if is_builtin "str" sv && is_module "datetime" dv
          then Val (VStr (now h), h)
          else Stuck
      | _, _ => Stuck
      end
  end.

(** Modules that [import] finds. *)
Definition importable : list string := ["pandas"; "numpy"; "datetime"; "os"].

Fixpoint import_all (ns : gmap string pyval) (ms : list string) : res (gmap string pyval) :=
  match ms with
  | [] => Val ns
  | m :: ms' =>
      if existsb (String.eqb m) importable
      then import_all (<[m := VModule m]> ns) ms'
      else Exc (Exn true ("No module named '" +:+ m +:+ "'"))
  end.

(** The statements run in a store in which nothing has been rebound; in
    another store the fragment models no run. *)
Definition exec_stmt (ns : gmap string pyval) (h : heap) (s : stmt)
  : res (gmap string pyval * heap) :=
  match patches h with
  | _ :: _ => Stuck
  | [] =>
      match s with
      | SAssign x e =>
          match eval ns h e with
          | Val (v, h') => Val (<[x := v]> ns, h')
          | Exc e => Exc e
          | Stuck => Stuck
          end
      | SDropAll x =>
          match lookup_name ns x with
          | Val (VFrame l) =>
              match h !! l with
              | Some fr => Val (ns, set_frame h l (Frame (columns fr) []))
              | None => Stuck
              end
          | Val _ => Stuck
          | Exc e => Exc e
          | Stuck => Stuck
          end
      | SSetAttr x name z =>
          match lookup_name ns x with
          | Val (VFrame l) =>
              match h !! l with
              | Some _ =>
                  if String.eqb name "to_dict"
                  then Val (ns, add_patch h (Patch (TObject l) name (VInt z)))
                  else Stuck
              | None => Stuck
              end
          | Val _ => Stuck
          | Exc e => Exc e
          | Stuck => Stuck
          end
      | SImport ms =>
          match lookup_name ns "__import__" with
          | Val iv =>
              if is_builtin "__import__" iv then
                match import_all ns ms with
                | Val ns' => Val (ns', h)
                | Exc e => Exc e
                | Stuck => Stuck
                end
              else Stuck
          | Exc e => Exc e
          | Stuck => Stuck
          end
      | SPass => Val (ns, h)
      end
  end.

Fixpoint exec_stmts (ns : gmap string pyval) (h : heap) (ss : list stmt) : option run :=
  match ss with
  | [] => Some (Completed ns h)
  | s :: ss' =>
      match exec_stmt ns h s with
      | Val (ns', h') => exec_stmts ns' h' ss'
      | Exc e => Some (Raises e h)
      | Stuck => None
      end
  end.

(** The interpreter: code outside the fragment has no modelled run. *)
Definition run_code : interpreter :=
  fun code ns h =>
    match parse code with
    | Some ss => exec_stmts ns h ss
    | None => None
    end.

(** Expressions that do not read the clock. *)
Fixpoint timeless (e : expr) : bool :=
  match e with
  | EName _ => true
  | ECall _ arg => timeless arg
  | EHead e' _ => timeless e'
  | ENow => false
  end.

(** Statements that neither update a DataFrame in place, nor rebind an
    attribute, nor read the clock. *)
Definition pure (s : stmt) : bool :=
  match s with
  | SAssign _ e => timeless e
  | SImport _ | SPass => true
  | SDropAll _ | SSetAttr _ _ _ => false
  end.

(** Two values, each in its store, that show the same: two DataFrames with
    the same content, or the same value of another kind. *)
Definition same_value (g g' : heap) (v v' : pyval) : Prop :=
  match v, v' with
  | VFrame l, VFrame l' => exists fr, g !! l = Some fr /\ g' !! l' = Some fr
  | VFrame _, _ | _, VFrame _ => False
  | _, _ => v = v'
  end.

Definition same_globals (g g' : heap) (ns ns' : gmap string pyval) : Prop :=
  forall x, match ns !! x, ns' !! x with
            | Some v, Some v' => same_value g g' v v'
            | None, None => True
            | _, _ => False
            end.

(** The store [g2] has the DataFrames of [g] unchanged, perhaps more of
    them, and the same rebound attributes. *)
Definition grows (g g2 : heap) : Prop :=
  (forall l fr, g !! l = Some fr -> g2 !! l = Some fr) /\ patches g2 = patches g.

(** The ends of two runs that show the same. *)
Definition same_run (r r' : option run) : Prop :=
  match r, r' with
  | Some (Completed ns g), Some (Completed ns' g') => same_globals g g' ns ns'
  | Some (Raises e _), Some (Raises e' _) => e = e'
  | None, None => True
  | _, _ => False
  end.

End Fragment.

(** The dataset of the end-to-end scenarios: columns date, region, sales. *)
Definition sample_frame : frame :=
  Frame ["date"; "region"; "sales"]
        [ [CDate 2023 7 1; CStr "East"; CInt 100];
          [CDate 2023 1 15; CStr "West"; CInt 50] ].

Definition sample_heap : heap := Heap [sample_frame] [] "2023-07-01 12:00:00.000000".

(** * Properties *)

(** ** Text *)

Lemma ascii_eqb_eq (a b : ascii) : ascii_eqb a b = true <-> a = b.
Proof.
  unfold ascii_eqb. rewrite N.eqb_eq. split; [|congruence].
  intros E. rewrite <- (ascii_N_embedding a), <- (ascii_N_embedding b). congruence.
Qed.

Lemma ascii_eqb_refl (a : ascii) : ascii_eqb a a = true.
Proof. now apply ascii_eqb_eq. Qed.

Lemma after_prefix_spec (p s r : text) : after_prefix p s = Some r <-> s = p ++ r.
Proof.
  revert s. induction p as [|a p IH]; intros s; simpl.
  - split; congruence.
  - destruct s as [|b s]; [split; discriminate|].
    destruct (ascii_eqb a b) eqn:E.
    + apply ascii_eqb_eq in E as ->. rewrite IH. split; congruence.
    + split; [discriminate|]. intros [= -> _]. rewrite ascii_eqb_refl in E. discriminate.
Qed.

Lemma after_prefix_app (p r : text) : after_prefix p (p ++ r) = Some r.
Proof. now apply after_prefix_spec. Qed.

Lemma contains_spec (s k : text) :
  contains s k = true <-> exists a b, s = a ++ k ++ b.
Proof.
  induction s as [|c s IH]; simpl.
  - destruct (after_prefix k []) as [r|] eqn:E.
    + apply after_prefix_spec in E. split; [|reflexivity].
      intros _. exists [], r. exact E.
    + split; [discriminate|]. intros (a & b & E').
      destruct a; [|discriminate]. simpl in E'.
      rewrite E', after_prefix_app in E. discriminate.
  - destruct (after_prefix k (c :: s)) as [r|] eqn:E.
    + apply after_prefix_spec in E. split; [|reflexivity].
      intros _. exists [], r. exact E.
    + rewrite IH. split.
      * intros (a & b & ->). now exists (c :: a), b.
      * intros (a & b & E'). destruct a as [|c' a].
        -- simpl in E'. rewrite E', after_prefix_app in E. discriminate.
        -- injection E' as -> ->. now exists a, b.
Qed.

Lemma text_eqb_eq (a b : text) : text_eqb a b = true <-> a = b.
Proof.
  unfold text_eqb. destruct (after_prefix a b) as [r|] eqn:E.
  - apply after_prefix_spec in E. subst b. destruct r.
    + rewrite app_nil_r. tauto.
    + split; [discriminate|]. intros E. apply (f_equal (@length ascii)) in E.
      rewrite length_app in E. simpl in E. lia.
  - split; [discriminate|]. intros ->.
    rewrite <- (app_nil_r b) in E at 2. rewrite after_prefix_app in E. discriminate.
Qed.

(** ** Regular expressions *)

Lemma after_lit_app (p r : text) : Re.after_lit p (p ++ r) = Some r.
Proof.
  induction p as [|a p IH]; simpl; [reflexivity|].
  now rewrite ascii_eqb_refl.
Qed.

Lemma search_app (r : Re.regex) (a s : text) :
  Re.match_here r s = true -> Re.search r (a ++ s) = true.
Proof.
  intros M. induction a as [|c a IH]; simpl.
  - destruct s; simpl; now rewrite M.
  - rewrite IH. apply orb_true_r.
Qed.

Lemma spaces_then_app (k : text -> bool) (ws s : text) :
  forallb is_space ws = true -> k s = true -> Re.spaces_then k (ws ++ s) = true.
Proof.
  intros W K. induction ws as [|c ws IH]; simpl.
  - destruct s; simpl; now rewrite K.
  - simpl in W. apply andb_true_iff in W as [-> W].
    rewrite (IH W). apply orb_true_r.
Qed.

(** ** The safety validator *)

Lemma scan_patterns_false (ps : list Re.regex) (c : text) :
  scan_patterns ps c = false <-> exists p, In p ps /\ Re.search p c = true.
Proof.
  induction ps as [|p ps IH]; simpl.
  - split; [discriminate|]. intros (? & [] & _).
  - destruct (Re.search p c) eqn:E.
    + split; [|reflexivity]. intros _. exists p. auto.
    + rewrite IH. split.
      * intros (q & I & S). exists q. auto.
      * intros (q & [<-|I] & S); [congruence|]. exists q. auto.
Qed.

Lemma scan_patterns_true (ps : list Re.regex) (c : text) :
  scan_patterns ps c = true <-> forall p, In p ps -> Re.search p c = false.
Proof.
  split.
  - intros T p I. destruct (Re.search p c) eqn:E; [|reflexivity].
    assert (scan_patterns ps c = false) by (apply scan_patterns_false; eauto). congruence.
  - intros A. destruct (scan_patterns ps c) eqn:E; [reflexivity|].
    apply scan_patterns_false in E as (p & I & S). rewrite (A p I) in S. discriminate.
Qed.

Lemma first_match_split (ps : list Re.regex) (c : text) (p : Re.regex) :
  first_match ps c = Some p <->
  exists l1 l2, ps = l1 ++ p :: l2 /\ Re.search p c = true
                /\ Forall (fun q => Re.search q c = false) l1.
Proof.
  revert p. induction ps as [|q ps IH]; intros p; simpl.
  - split; [discriminate|]. intros (l1 & l2 & E & _). destruct l1; discriminate.
  - destruct (Re.search q c) eqn:Q.
    + split.
      * intros [= <-]. exists [], ps. auto.
      * intros (l1 & l2 & E & S & F). destruct l1 as [|q' l1].
        -- injection E as -> _. reflexivity.
        -- injection E as <- _. inversion F; congruence.
    + rewrite IH. split.
      * intros (l1 & l2 & -> & S & F). exists (q :: l1), l2. auto.
      * intros (l1 & l2 & E & S & F). destruct l1 as [|q' l1].
        -- injection E as -> _. congruence.
        -- injection E as <- ->. inversion F. eauto.
Qed.

Lemma first_match_scan (ps : list Re.regex) (c : text) :
  scan_patterns ps c = false <-> exists p, first_match ps c = Some p.
Proof.
  induction ps as [|q ps IH]; simpl.
  - split; [discriminate|]. intros [? ?]; discriminate.
  - destruct (Re.search q c); [|exact IH]. split; eauto.
Qed.

(** A rejected expression is not run: the executor returns the fixed message
    and leaves the store as it is, whatever the interpreter. *)
Lemma execute_unsafe (run_code : interpreter) (c : text) (df : loc) (h : heap) :
  is_safe_code c = false ->
  execute_pandas_code run_code c df h = Some (Return None (Some unsafe_message), h).
Proof. intros U. unfold execute_pandas_code. now rewrite U. Qed.

Lemma open_call_rejected (a ws b : text) :
  forallb is_space ws = true ->
  is_safe_code (a ++ txt "open" ++ ws ++ txt "(" ++ b) = false.
Proof.
  intros W. apply scan_patterns_false.
  exists [Re.Lit (txt "open"); Re.Spaces0; Re.Lit (txt "(")]. split.
  - unfold dangerous_patterns. simpl. tauto.
  - apply search_app. cbn [Re.match_here]. rewrite after_lit_app.
    apply spaces_then_app; [exact W|]. now rewrite after_lit_app.
Qed.

(** C2 (as amended).  [is_safe_code] returns [False] exactly when some pattern
    of the denylist matches and [True] exactly when none does; on a rejection
    the loop has returned at the first pattern that matches, the ones before
    it not matching; the value returned is the bare boolean, and the executor
    reports the same fixed message whichever pattern matched. *)
Theorem is_safe_code_rejects_iff_match (c : text) :
  (is_safe_code c = false <-> exists p, In p dangerous_patterns /\ Re.search p c = true)
  /\ (is_safe_code c = true <-> forall p, In p dangerous_patterns -> Re.search p c = false)
  /\ (is_safe_code c = false <->
      exists l1 p l2, dangerous_patterns = l1 ++ p :: l2
                      /\ first_match dangerous_patterns c = Some p
                      /\ Re.search p c = true
                      /\ Forall (fun q => Re.search q c = false) l1)
  /\ (forall run_code df h, is_safe_code c = false ->
      execute_pandas_code run_code c df h = Some (Return None (Some unsafe_message), h)).
Proof.
  split; [apply scan_patterns_false|].
  split; [apply scan_patterns_true|].
  split; [|intros; now apply execute_unsafe].
  unfold is_safe_code. rewrite first_match_scan. split.
  - intros [p F]. destruct (proj1 (first_match_split _ _ _) F) as (l1 & l2 & E & S & N).
    exists l1, p, l2. auto.
  - intros (l1 & p & l2 & _ & F & _). eauto.
Qed.

(** C2 (as stated) fails: no reason can be read off the value that
    [is_safe_code] returns, since [open(] and [pickle] are rejected at
    different patterns with the same return value. *)
Lemma rejection_reason_not_reported :
  ~ (exists reason : bool -> option Re.regex,
       forall c, is_safe_code c = false ->
                 reason (is_safe_code c) = first_match dangerous_patterns c).
Proof.
  intros [reason R].
  pose proof (R (txt "open(") eq_refl) as R1.
  pose proof (R (txt "pickle") eq_refl) as R2.
  assert (E1 : is_safe_code (txt "open(") = false) by reflexivity.
  assert (E2 : is_safe_code (txt "pickle") = false) by reflexivity.
  rewrite E1 in R1. rewrite E2 in R2. rewrite R1 in R2.
  vm_compute in R2. discriminate.
Qed.

(** C10.  An expression that imports a module outside the allow-list is
    accepted: [import numpy, os] passes the validator, is run by the
    executor, and leaves [os] bound in the globals; so does an import of a
    module whose name only begins with an allowed one.  Whatever follows an
    allowed name, the import pattern does not match at that statement. *)
Theorem import_outside_allow_list_accepted :
  is_safe_code (txt "import numpy, os") = true
  /\ Fragment.parse (txt "import numpy, os") = Some [Fragment.SImport ["numpy"; "os"]]
  /\ ~ In (txt "os") allowed_modules
  /\ (exists ns,
        py_exec Fragment.run_code (txt "import numpy, os") (namespace 0) sample_heap
        = Some (Completed ns sample_heap)
        /\ ns !! "os" = Some (VModule "os"))
  /\ execute_pandas_code Fragment.run_code (txt "import numpy, os") 0 sample_heap
     = Some (Return None (Some no_result_message), sample_heap)
  /\ is_safe_code (txt "import pandasql") = true
  /\ is_safe_code (txt "import numpy_financial") = true
  /\ (forall m rest, In m allowed_modules ->
        Re.match_here [Re.Lit (txt "import"); Re.Spaces1; Re.NotAhead allowed_modules]
                      (txt "import " ++ m ++ rest) = false).
Proof.
  split; [reflexivity|]. split; [reflexivity|].
  split; [intros I; simpl in I; intuition discriminate|].
  split; [eexists; split; [vm_compute; reflexivity|reflexivity]|].
  split; [vm_compute; reflexivity|].
  split; [reflexivity|]. split; [reflexivity|].
  intros m rest [<-|[<-|[<-|[]]]]; reflexivity.
Qed.

(** ** The local pattern translator *)

Lemma lstrip_keeps (a r : text) (c : ascii) :
  is_space c = false -> exists a', lstrip (a ++ c :: r) = a' ++ c :: r.
Proof.
  intros C. induction a as [|x a IH]; simpl.
  - rewrite C. now exists [].
  - destruct (is_space x); [exact IH|]. now exists (x :: a).
Qed.

Lemma lstrip_suffix (s : text) : exists a, s = a ++ lstrip s.
Proof.
  induction s as [|c s [a IH]]; simpl.
  - now exists [].
  - destruct (is_space c); [|now exists []].
    exists (c :: a). simpl. now f_equal.
Qed.

Lemma rstrip_prefix (s : text) : exists b, s = rstrip s ++ b.
Proof.
  unfold rstrip. destruct (lstrip_suffix (rev s)) as [a E].
  exists (rev a). rewrite <- rev_app_distr, <- E. now rewrite rev_involutive.
Qed.

Lemma solid_split (k : text) :
  solid k = true ->
  exists c k', k = c :: k' /\ is_space c = false
               /\ exists d k'', rev k = d :: k'' /\ is_space d = false.
Proof.
  destruct k as [|c k']; [discriminate|]. unfold solid. intros S.
  apply andb_true_iff in S as [S1 S2].
  apply negb_true_iff in S1, S2.
  exists c, k'. split; [reflexivity|]. split; [exact S1|].
  destruct (exists_last (l := c :: k')) as (k0 & d & E); [discriminate|].
  rewrite E in S2 |- *. rewrite List.last_last in S2.
  exists d, (rev k0). split; [|exact S2].
  rewrite rev_app_distr. reflexivity.
Qed.

Lemma contains_strip (s k : text) :
  solid k = true -> contains (strip s) k = contains s k.
Proof.
  intros S. apply eq_true_iff_eq. rewrite !contains_spec. split.
  - intros (a & b & E). unfold strip in E.
    destruct (rstrip_prefix (lstrip s)) as [b' E'].
    destruct (lstrip_suffix s) as [a' E''].
    exists (a' ++ a), (b ++ b'). rewrite E'', E', E.
    now rewrite <- !app_assoc.
  - intros (a & b & ->).
    destruct (solid_split k S) as (c & k' & -> & C & d & k'' & Er & D).
    unfold strip, rstrip.
    destruct (lstrip_keeps a (k' ++ b) c C) as [a' L].
    change (a ++ (c :: k') ++ b) with (a ++ c :: k' ++ b). rewrite L.
    assert (E1 : rev (a' ++ c :: k' ++ b) = rev b ++ d :: k'' ++ rev a').
    { change (a' ++ c :: k' ++ b) with (a' ++ (c :: k') ++ b).
      rewrite !rev_app_distr, Er, <- app_assoc. reflexivity. }
    rewrite E1.
    destruct (lstrip_keeps (rev b) (k'' ++ rev a') d D) as [b' R].
    rewrite R.
    assert (E2 : b' ++ d :: k'' ++ rev a' = rev (a' ++ (c :: k') ++ rev b')).
    { rewrite !rev_app_distr, rev_involutive, Er, <- app_assoc. reflexivity. }
    rewrite E2, rev_involutive. now exists a', (rev b').
Qed.

Lemma count_present_strip (s : text) (ks : list text) :
  forallb solid ks = true -> count_present (strip s) ks = count_present s ks.
Proof.
  induction ks as [|k ks IH]; simpl; [reflexivity|].
  intros S. apply andb_true_iff in S as [S1 S2].
  now rewrite contains_strip, IH.
Qed.

Lemma catalog_solid (p : pattern) : In p patterns -> forallb solid (keywords p) = true.
Proof.
  assert (A : forallb (fun p => forallb solid (keywords p)) patterns = true)
    by (vm_compute; reflexivity).
  rewrite forallb_forall in A. apply A.
Qed.

Lemma matches_strip (s : text) (p : pattern) :
  In p patterns -> matches (strip s) p = matches s p.
Proof. intros I. apply count_present_strip, catalog_solid, I. Qed.

Lemma count_present_all (s : text) (ks : list text) :
  forallb (contains s) ks = true -> count_present s ks = length ks.
Proof.
  induction ks as [|k ks IH]; simpl; [reflexivity|].
  intros A. apply andb_true_iff in A as [-> A]. now rewrite IH.
Qed.

Lemma count_present_none (s : text) (ks : list text) :
  (forall k, In k ks -> contains s k = false) -> count_present s ks = 0%nat.
Proof.
  induction ks as [|k ks IH]; simpl; [reflexivity|].
  intros A. rewrite (A k) by auto. rewrite IH; auto.
Qed.

Lemma find_best_below (q : text) (ps : list pattern) (st : option pattern * nat) (c : nat) :
  (snd st < c)%nat -> Forall (fun p => (matches q p < c)%nat) ps ->
  (snd (find_best q ps st) < c)%nat.
Proof.
  intros B F. revert st B. induction F as [|p ps Hp F IH]; intros st B; simpl; [exact B|].
  apply IH. unfold best_step.
  destruct ((snd st <? matches q p)%nat && (0 <? matches q p)%nat); simpl; assumption.
Qed.

Lemma find_best_keep (q : text) (ps : list pattern) (st : option pattern * nat) :
  Forall (fun p => (matches q p <= snd st)%nat) ps -> find_best q ps st = st.
Proof.
  induction 1 as [|p ps Hp F IH]; simpl; [reflexivity|].
  assert (K : best_step q st p = st).
  { unfold best_step.
    apply Nat.ltb_ge in Hp. cbv zeta. now rewrite Hp. }
  rewrite K. exact IH.
Qed.

(** The loop returns the first entry whose count is the greatest. *)
Lemma find_best_select (q : text) (pre post : list pattern) (e : pattern) :
  (0 < matches q e)%nat ->
  Forall (fun p => (matches q p < matches q e)%nat) pre ->
  Forall (fun p => (matches q p <= matches q e)%nat) post ->
  find_best q (pre ++ e :: post) (None, 0%nat) = (Some e, matches q e).
Proof.
  intros P Fpre Fpost. unfold find_best. rewrite fold_left_app. simpl.
  pose proof (find_best_below q pre (None, 0%nat) (matches q e) P Fpre) as B.
  unfold find_best in B.
  assert (K : best_step q (fold_left (best_step q) pre (None, 0%nat)) e
              = (Some e, matches q e)).
  { set (st := fold_left (best_step q) pre (None, 0%nat)) in *.
    unfold best_step. cbv zeta.
    apply Nat.ltb_lt in B. apply Nat.ltb_lt in P. now rewrite B, P. }
  rewrite K. apply (find_best_keep q post (Some e, matches q e)). exact Fpost.
Qed.

Lemma catalog_keywords (p : pattern) : In p patterns -> (0 < length (keywords p))%nat.
Proof.
  intros I. simpl in I.
  repeat (destruct I as [<-|I]; [simpl; lia|]). destruct I.
Qed.

(** C5 (as amended).  When the lower-cased query contains all keywords of a
    catalog entry, every earlier entry has fewer of its keywords in the query
    than that entry has keywords, and no later entry has more, the translator
    returns that entry's code. *)
Theorem parse_query_locally_best_entry
    (q : text) (cols : list string) (pre post : list pattern) (e : pattern) :
  patterns = pre ++ e :: post ->
  all_present (lower q) e = true ->
  Forall (fun p => (matches (lower q) p < length (keywords e))%nat) pre ->
  Forall (fun p => (matches (lower q) p <= length (keywords e))%nat) post ->
  parse_query_locally q cols = (code e, None).
Proof.
  intros E A Fpre Fpost.
  assert (Ie : In e patterns) by (rewrite E; apply in_or_app; simpl; auto).
  assert (Me : matches (strip (lower q)) e = length (keywords e)).
  { rewrite matches_strip by exact Ie. now apply count_present_all. }
  unfold parse_query_locally. rewrite E.
  rewrite find_best_select.
  - reflexivity.
  - rewrite Me. now apply catalog_keywords.
  - rewrite Me. rewrite List.Forall_forall in Fpre |- *. intros p I.
    rewrite matches_strip; [now apply Fpre|].
    rewrite E. apply in_or_app. auto.
  - rewrite Me. rewrite List.Forall_forall in Fpost |- *. intros p I.
    rewrite matches_strip; [now apply Fpost|].
    rewrite E. apply in_or_app. simpl. auto.
Qed.

Lemma parse_query_locally_best_entry_witness :
  parse_query_locally (txt "sales in july") ["date"; "region"; "sales"]
  = (txtq "result = df[df[`date`].dt.month == 7]", None).
Proof.
  apply (parse_query_locally_best_entry (txt "sales in july") ["date"; "region"; "sales"]
           (firstn 4 patterns) (skipn 5 patterns)
           (Pattern [txt "sales"; txt "july"]
                    (txtq "result = df[df[`date`].dt.month == 7]") "Sales in July")).
  - reflexivity.
  - reflexivity.
  - repeat first [apply List.Forall_nil | apply List.Forall_cons; [vm_compute; lia|]].
  - repeat first [apply List.Forall_nil | apply List.Forall_cons; [vm_compute; lia|]].
Defined.

(** C5 (as stated) fails: the lower-cased query [sales by july] contains all
    keywords of the July entry and of no other entry, and the translator
    returns the code of the first entry, which ties with it at two keywords. *)
Lemma sole_full_entry_not_returned :
  ~ (forall (q : text) (cols : list string) (e : pattern),
       In e patterns ->
       all_present (lower q) e = true ->
       (forall e', In e' patterns -> all_present (lower q) e' = true -> e' = e) ->
       parse_query_locally q cols = (code e, None)).
Proof.
  intros H.
  specialize (H (txt "sales by july") []
                (Pattern [txt "sales"; txt "july"]
                         (txtq "result = df[df[`date`].dt.month == 7]") "Sales in July")).
  assert (R : parse_query_locally (txt "sales by july") []
              = (txtq "result = df.groupby(`region`)[`sales`].sum().reset_index()", None))
    by (vm_compute; reflexivity).
  rewrite R in H. clear R.
  assert (D : (txtq "result = df.groupby(`region`)[`sales`].sum().reset_index()", @None string)
              <> (txtq "result = df[df[`date`].dt.month == 7]", None))
    by (vm_compute; discriminate).
  apply D, H; clear D H.
  - simpl. tauto.
  - reflexivity.
  - intros e' I A. simpl in I.
    repeat (destruct I as [<-|I]; [first [reflexivity | vm_compute in A; discriminate]|]).
    destruct I.
Qed.

Lemma parse_query_locally_no_error (q : text) (cols : list string) :
  exists c, parse_query_locally q cols = (c, None).
Proof.
  unfold parse_query_locally.
  destruct (fst (find_best (strip (lower q)) patterns (None, 0%nat))); eauto.
Qed.

(** C6.  The translator returns a code for every query and column list, with
    no error; when the lower-cased query contains no keyword of any entry it
    returns the default preview [result = df.head(10)]. *)
Theorem parse_query_locally_total_default (q : text) (cols : list string) :
  (exists c, parse_query_locally q cols = (c, None))
  /\ ((forall p k, In p patterns -> In k (keywords p) -> contains (lower q) k = false) ->
      parse_query_locally q cols = (txt "result = df.head(10)", None)).
Proof.
  split; [apply parse_query_locally_no_error|].
  intros N. unfold parse_query_locally. rewrite find_best_keep; [reflexivity|].
  apply List.Forall_forall. intros p I. simpl.
  rewrite matches_strip by exact I.
  unfold matches. rewrite count_present_none; [lia|].
  intros k Ik. now apply (N p k).
Qed.

Lemma parse_query_locally_total_default_witness :
  parse_query_locally (txt "Hello there") [] = (txt "result = df.head(10)", None).
Proof.
  apply (proj2 (parse_query_locally_total_default (txt "Hello there") [])).
  intros p k Ip Ik. simpl in Ip.
  repeat (destruct Ip as [<-|Ip];
          [simpl in Ik; repeat (destruct Ik as [<-|Ik]; [reflexivity|]); destruct Ik|]).
  destruct Ip.
Defined.

(** ** The code generation coordinator *)

Section CoordinatorFacts.

Variable create : text -> list string -> reply.
Variable json_loads : text -> option pyjson.

Lemma fallback_code (q : text) (cols : list string) :
  (let '(c, e) := parse_query_locally q cols in (JStr c, e))
  = (JStr (fst (parse_query_locally q cols)), None).
Proof.
  destruct (parse_query_locally_no_error q cols) as [c E].
  now rewrite E.
Qed.

Lemma generate_not_configured (q : text) (cols : list string) :
  generate_pandas_code false create json_loads q cols
  = (JStr (fst (parse_query_locally q cols)), None).
Proof. unfold generate_pandas_code. simpl. apply fallback_code. Qed.

(** An error returned by the coordinator ends the request with status 500. *)
Lemma ask_generation_error
    (configured : bool) (run_code : interpreter) (df : loc) (fr : frame) (h : heap)
    (q0 : text) (c : pyjson) (msg : string) :
  h !! df = Some fr ->
  strip q0 <> [] ->
  generate_pandas_code configured create json_loads (strip q0) (columns fr) = (c, Some msg) ->
  msg <> "" ->
  ask configured create json_loads run_code (Some df) (Some q0) h
  = Some (Error 500 ("Failed to generate code: " +:+ msg), h).
Proof.
  intros Hdf Q G M. unfold ask. destruct (strip q0) as [|x q] eqn:E; [congruence|].
  rewrite Hdf, G. simpl.
  destruct (String.eqb_spec msg ""); [congruence|]. reflexivity.
Qed.

End CoordinatorFacts.

(** C3 (as amended).  With the remote generator configured: when the remote
    call raises or the content is not valid JSON, the coordinator returns the
    local translator's code and no error; when the content is empty or the
    decoded object has no 'code' key, it returns no code and an error
    message, and the request ends with 'Failed to generate code: ...'. *)
Theorem generate_pandas_code_failure_paths
    (create : text -> list string -> reply) (json_loads : text -> option pyjson)
    (q : text) (cols : list string) :
  (create q cols = CallRaises ->
   generate_pandas_code true create json_loads q cols
   = (JStr (fst (parse_query_locally q cols)), None))
  /\ (forall content, create q cols = Content (Some content) ->
      json_loads content = None ->
      generate_pandas_code true create json_loads q cols
      = (JStr (fst (parse_query_locally q cols)), None))
  /\ (create q cols = Content None ->
      generate_pandas_code true create json_loads q cols
      = (JNull, Some "OpenAI response content is empty"))
  /\ (forall content items, create q cols = Content (Some content) ->
      json_loads content = Some (JObj items) ->
      dict_get (txt "code") items = None ->
      generate_pandas_code true create json_loads q cols
      = (JNull, Some "OpenAI response does not contain 'code' field"))
  /\ (forall run_code df fr h q0,
      h !! df = Some fr -> strip q0 = q -> q <> [] -> cols = columns fr ->
      (create q cols = Content None ->
       ask true create json_loads run_code (Some df) (Some q0) h
       = Some (Error 500 "Failed to generate code: OpenAI response content is empty", h))
      /\ (forall content items, create q cols = Content (Some content) ->
          json_loads content = Some (JObj items) ->
          dict_get (txt "code") items = None ->
          ask true create json_loads run_code (Some df) (Some q0) h
          = Some (Error 500
                    "Failed to generate code: OpenAI response does not contain 'code' field",
                  h))).
Proof.
  assert (P1 : create q cols = Content None ->
               generate_pandas_code true create json_loads q cols
               = (JNull, Some "OpenAI response content is empty")).
  { intros C. unfold generate_pandas_code. simpl. now rewrite C. }
  assert (P2 : forall content items, create q cols = Content (Some content) ->
               json_loads content = Some (JObj items) ->
               dict_get (txt "code") items = None ->
               generate_pandas_code true create json_loads q cols
               = (JNull, Some "OpenAI response does not contain 'code' field")).
  { intros content items C J D. unfold generate_pandas_code. simpl.
    rewrite C, J. unfold code_in. now rewrite D. }
  split; [|split; [|split; [exact P1|split; [exact P2|]]]].
  - intros C. unfold generate_pandas_code. simpl. rewrite C. apply fallback_code.
  - intros content C J. unfold generate_pandas_code. simpl. rewrite C, J.
    apply fallback_code.
  - intros run_code df fr h q0 Hdf <- Q ->. split.
    + intros C.
      apply (ask_generation_error create json_loads true run_code df fr h q0 JNull
               "OpenAI response content is empty"); auto; discriminate.
    + intros content items C J D.
      apply (ask_generation_error create json_loads true run_code df fr h q0 JNull
               "OpenAI response does not contain 'code' field"); eauto; discriminate.
Qed.

Lemma generate_pandas_code_failure_paths_witness :
  generate_pandas_code true (fun _ _ => Content None) (fun _ => None)
                       (txt "total sales") ["date"; "region"; "sales"]
  = (JNull, Some "OpenAI response content is empty").
Proof.
  apply (generate_pandas_code_failure_paths (fun _ _ => Content None) (fun _ => None)
           (txt "total sales") ["date"; "region"; "sales"]).
  reflexivity.
Defined.

(** C3 (as stated) fails: with the remote generator configured and an empty
    response content, the coordinator does not return the local translator's
    code. *)
Lemma empty_content_is_surfaced :
  ~ (forall (create : text -> list string -> reply) (json_loads : text -> option pyjson)
            (q : text) (cols : list string),
       create q cols = Content None ->
       generate_pandas_code true create json_loads q cols
       = (JStr (fst (parse_query_locally q cols)), None)).
Proof.
  intros H.
  specialize (H (fun _ _ => Content None) (fun _ => None) (txt "total sales") [] eq_refl).
  vm_compute in H. discriminate.
Qed.

(** ** The pipeline *)

(** C4 (as amended).  When the generated expression contains the literal
    [open(], the request ends with the validation error and the store is what
    it was, whatever the interpreter: the expression is not run.  The check is
    on the generated expression; the query text is not validated. *)
Theorem open_in_generated_code_rejected
    (configured : bool) (create : text -> list string -> reply)
    (json_loads : text -> option pyjson) (run_code : interpreter)
    (df : loc) (fr : frame) (h : heap) (q0 c : text) :
  h !! df = Some fr ->
  strip q0 <> [] ->
  generate_pandas_code configured create json_loads (strip q0) (columns fr) = (JStr c, None) ->
  contains c (txt "open(") = true ->
  ask configured create json_loads run_code (Some df) (Some q0) h
  = Some (Error 500 "Generated code contains unsafe operations", h).
Proof.
  intros Hdf Q G O.
  apply contains_spec in O as (a & b & ->).
  assert (U : is_safe_code (a ++ txt "open(" ++ b) = false).
  { change (txt "open(" ++ b) with (txt "open" ++ [] ++ txt "(" ++ b).
    now apply open_call_rejected. }
  remember (a ++ txt "open(" ++ b) as code eqn:Ec. clear Ec.
  unfold ask. destruct (strip q0) as [|x q] eqn:E; [congruence|].
  rewrite Hdf, G. simpl. now rewrite (execute_unsafe run_code code df h U).
Qed.

Lemma open_in_generated_code_rejected_witness :
  ask true (fun _ _ => Content (Some (txtq "{`code`: `result = open(1)`}")))
      (fun _ => Some (JObj [(txt "code", JStr (txt "result = open(1)"))]))
      Fragment.run_code (Some 0%nat) (Some (txt "read the file")) sample_heap
  = Some (Error 500 "Generated code contains unsafe operations", sample_heap).
Proof.
  apply (open_in_generated_code_rejected true _ _ Fragment.run_code 0%nat sample_frame
           sample_heap (txt "read the file") (txt "result = open(1)")).
  - reflexivity.
  - vm_compute. discriminate.
  - reflexivity.
  - reflexivity.
Defined.

(** C4 (as stated) fails: the query [open(] is translated to the default
    preview, which is accepted and run. *)
Lemma open_in_query_is_run :
  ~ (forall (q : text) (df : loc) (h : heap) (r : response) (h' : heap),
       contains q (txt "open(") = true ->
       ask false (fun _ _ => CallRaises) (fun _ => None) Fragment.run_code
           (Some df) (Some q) h = Some (r, h') ->
       r = Error 500 "Generated code contains unsafe operations").
Proof.
  intros H.
  specialize (H (txt "open(") 0%nat sample_heap).
  assert (R : exists o h', ask false (fun _ _ => CallRaises) (fun _ => None) Fragment.run_code
                (Some 0%nat) (Some (txt "open(")) sample_heap
              = Some (Success (Some o) (txt "result = df.head(10)") (txt "open("), h')).
  { eexists _, _. vm_compute. reflexivity. }
  destruct R as (o & h' & R).
  specialize (H _ _ eq_refl R). discriminate.
Qed.

(** ** The sandboxed executor *)

Lemma execute_safe (run_code : interpreter) (c : text) (df : loc) (h : heap) :
  is_safe_code c = true ->
  execute_pandas_code run_code c df h
  = match run_code c (<["__builtins__" := VModule "builtins"]> (namespace df)) h with
    | None => None
    | Some (Raises (Exn true msg) h') =>
        if builtins_intact h'
        then Some (Return None (Some (exec_error_message msg)), h')
        else None
    | Some (Raises (Exn false msg) h') =>
        if builtins_intact h' then Some (Escapes (Exn false msg), h') else None
    | Some (Completed ns h') =>
        match ns !! "result" with
        | Some result =>
            match convert h' result with
            | Some (Converted o) => Some (Return (Some o) None, h')
            | Some (ConversionRaises msg) =>
                Some (Return None (Some (exec_error_message msg)), h')
            | None => None
            end
        | None => Some (Return None (Some no_result_message), h')
        end
    end.
Proof. intros S. unfold execute_pandas_code, py_exec. now rewrite S. Qed.

(** The executor writes nothing itself: the store it ends with is the one
    the run left, or the initial one when the expression is rejected. *)
Lemma execute_heap (run_code : interpreter) (c : text) (df : loc) (h h' : heap) (r : ret) :
  execute_pandas_code run_code c df h = Some (r, h') ->
  (is_safe_code c = false /\ h' = h)
  \/ (exists rn, py_exec run_code c (namespace df) h = Some rn /\ h' = heap_of rn).
Proof.
  unfold execute_pandas_code. destruct (is_safe_code c); simpl.
  - intros E. right. destruct (py_exec run_code c (namespace df) h) as [rn|]; [|discriminate].
    exists rn. split; [reflexivity|]. destruct rn as [ns h1|[[|] msg] h1]; simpl.
    + destruct (ns !! "result") as [v|].
      * destruct (convert h1 v) as [[o|m]|]; [| |discriminate]; congruence.
      * congruence.
    + destruct (builtins_intact h1); [congruence|discriminate].
    + destruct (builtins_intact h1); [congruence|discriminate].
  - intros [= <- <-]. now left.
Qed.

Lemma to_dict_records_length (fr : frame) :
  length (to_dict_records fr) = length (rows fr).
Proof. unfold to_dict_records. apply length_map. Qed.

Lemma exec_globals_namespace (df : loc) :
  exec_globals (namespace df) = <["__builtins__" := VModule "builtins"]> (namespace df).
Proof. reflexivity. Qed.

Lemma resolve_exec_globals (B : gmap string pyval) (df : loc) (x : string) :
  resolve B (exec_globals (namespace df)) x
  = match namespace df !! x with
    | Some v => Some v
    | None => if String.eqb x "__builtins__" then Some (VModule "builtins") else B !! x
    end.
Proof.
  rewrite exec_globals_namespace. unfold resolve.
  rewrite lookup_insert_eq. simpl.
  destruct (String.eqb_spec x "__builtins__") as [->|N].
  - rewrite lookup_insert_eq. reflexivity.
  - rewrite lookup_insert_ne by congruence.
    destruct (namespace df !! x); reflexivity.
Qed.






(** C8.  When an accepted expression runs to completion and leaves no
    binding named [result], the executor returns no result and the message
    'Generated code did not produce a 'result' variable', which differs from
    the validation message and from every execution-error message. *)
Theorem execute_missing_result
    (run_code : interpreter) (c : text) (df : loc) (h h' : heap) (ns : gmap string pyval) :
  is_safe_code c = true ->
  py_exec run_code c (namespace df) h = Some (Completed ns h') ->
  ns !! "result" = None ->
  execute_pandas_code run_code c df h
  = Some (Return None (Some "Generated code did not produce a 'result' variable"), h')
  /\ no_result_message <> unsafe_message
  /\ (forall msg, no_result_message <> exec_error_message msg).
Proof.
  intros S E R. split; [|split].
  - unfold execute_pandas_code. rewrite S. simpl. now rewrite E, R.
  - discriminate.
  - intros msg. discriminate.
Qed.

Lemma execute_missing_result_witness :
  execute_pandas_code Fragment.run_code (txt "n = len(df)") 0%nat sample_heap
  = Some (Return None (Some "Generated code did not produce a 'result' variable"), sample_heap).
Proof.
  refine (proj1 (execute_missing_result Fragment.run_code (txt "n = len(df)") 0%nat
                   sample_heap sample_heap _ _ _ _)).
  - reflexivity.
  - vm_compute. reflexivity.
  - reflexivity.
Defined.

(** ** Two executions in succession *)

Lemma grows_refl (g : heap) : Fragment.grows g g.
Proof. split; auto. Qed.

Lemma grows_trans (g g2 g3 : heap) :
  Fragment.grows g g2 -> Fragment.grows g2 g3 -> Fragment.grows g g3.
Proof. intros [A B] [C D]. split; [auto|congruence]. Qed.

Lemma grows_alloc (g : heap) (fr : frame) : Fragment.grows g (alloc g fr).
Proof.
  split; [|reflexivity]. intros l fr' L. unfold lookup, heap_lookup in *. simpl.
  now apply lookup_app_l_Some.
Qed.

Lemma alloc_lookup_new (g : heap) (fr : frame) :
  alloc g fr !! length (frames g) = Some fr.
Proof.
  unfold lookup, heap_lookup. simpl. now apply list_lookup_middle.
Qed.

Lemma same_value_grows (g g' g2 g2' : heap) (v v' : pyval) :
  Fragment.grows g g2 -> Fragment.grows g' g2' ->
  Fragment.same_value g g' v v' -> Fragment.same_value g2 g2' v v'.
Proof.
  intros [A _] [B _]. unfold Fragment.same_value.
  destruct v, v'; auto. intros (fr & L & L'). exists fr. auto.
Qed.

Lemma same_globals_grows (g g' g2 g2' : heap) (ns ns' : gmap string pyval) :
  Fragment.grows g g2 -> Fragment.grows g' g2' ->
  Fragment.same_globals g g' ns ns' -> Fragment.same_globals g2 g2' ns ns'.
Proof.
  intros G G' S x. specialize (S x).
  destruct (ns !! x), (ns' !! x); auto. eapply same_value_grows; eauto.
Qed.

Lemma same_globals_insert (g g' : heap) (ns ns' : gmap string pyval) (x : string)
    (v v' : pyval) :
  Fragment.same_globals g g' ns ns' -> Fragment.same_value g g' v v' ->
  Fragment.same_globals g g' (<[x := v]> ns) (<[x := v']> ns').
Proof.
  intros S V y. destruct (decide (x = y)) as [->|N].
  - now rewrite !lookup_insert_eq.
  - rewrite !lookup_insert_ne by exact N. apply S.
Qed.

Lemma same_value_plain (g g' : heap) (v v' : pyval) :
  Fragment.same_value g g' v v' ->
  (exists l l', v = VFrame l /\ v' = VFrame l') \/ v = v'.
Proof. destruct v, v'; simpl; intros H; try contradiction; eauto. Qed.

Lemma same_value_builtin (g g' : heap) (v v' : pyval) (n : string) :
  Fragment.same_value g g' v v' ->
  Fragment.is_builtin n v' = Fragment.is_builtin n v
  /\ Fragment.is_module n v' = Fragment.is_module n v.
Proof.
  intros S. destruct (same_value_plain g g' v v' S) as [(l & l' & -> & ->) | ->]; auto.
Qed.

Lemma builtins_values (x : string) (v : pyval) :
  builtins !! x = Some v -> exists n, v = VBuiltin n.
Proof.
  unfold builtins. intros L. apply elem_of_list_to_map_2 in L.
  repeat (apply elem_of_cons in L as [L|L]; [injection L as _ ->; eauto|]).
  now apply elem_of_nil in L.
Qed.

Lemma resolve_same (g g' : heap) (ns ns' : gmap string pyval) (x : string) :
  Fragment.same_globals g g' ns ns' ->
  match resolve builtins ns x, resolve builtins ns' x with
  | Some v, Some v' => Fragment.same_value g g' v v'
  | None, None => True
  | _, _ => False
  end.
Proof.
  intros S. unfold resolve. pose proof (S x) as Sx. pose proof (S "__builtins__") as Sb.
  destruct (ns !! x) as [v|], (ns' !! x) as [v'|]; try contradiction; [exact Sx|].
  destruct (ns !! "__builtins__") as [b|], (ns' !! "__builtins__") as [b'|];
    try contradiction; [|exact I].
  destruct (same_value_plain g g' b b' Sb) as [(l & l' & -> & ->) | ->]; [exact I|].
  destruct b'; try exact I.
  destruct (String.eqb name "builtins"); [|exact I].
  destruct (builtins !! x) as [v|] eqn:B; [|exact I].
  destruct (builtins_values x v B) as [n ->]. reflexivity.
Qed.

Lemma lookup_name_same (g g' : heap) (ns ns' : gmap string pyval) (x : string) :
  Fragment.same_globals g g' ns ns' ->
  match Fragment.lookup_name ns x, Fragment.lookup_name ns' x with
  | Fragment.Val v, Fragment.Val v' => Fragment.same_value g g' v v'
  | Fragment.Stuck, Fragment.Stuck => True
  | _, _ => False
  end.
Proof.
  intros S. unfold Fragment.lookup_name. pose proof (resolve_same g g' ns ns' x S) as R.
  destruct (resolve builtins ns x), (resolve builtins ns' x); auto.
Qed.

Lemma eval_same (g g' : heap) (ns ns' : gmap string pyval) (e : Fragment.expr) :
  Fragment.timeless e = true ->
  Fragment.same_globals g g' ns ns' ->
  match Fragment.eval ns g e, Fragment.eval ns' g' e with
  | Fragment.Val (v, g2), Fragment.Val (v', g2') =>
      Fragment.same_value g2 g2' v v' /\ Fragment.grows g g2 /\ Fragment.grows g' g2'
  | Fragment.Exc e1, Fragment.Exc e2 => e1 = e2
  | Fragment.Stuck, Fragment.Stuck => True
  | _, _ => False
  end.
Proof.
  intros T S. induction e as [x|f arg IH|e IH n|]; simpl in T |- *.
  - pose proof (lookup_name_same g g' ns ns' x S) as L.
    destruct (Fragment.lookup_name ns x), (Fragment.lookup_name ns' x); try contradiction;
      auto using grows_refl.
  - pose proof (lookup_name_same g g' ns ns' f S) as L.
    destruct (Fragment.lookup_name ns f) as [fv| |],
             (Fragment.lookup_name ns' f) as [fv'| |]; try contradiction; auto.
    destruct (same_value_builtin g g' fv fv' "len" L) as [-> _].
    destruct (Fragment.is_builtin "len" fv); [|exact I].
    specialize (IH T).
    destruct (Fragment.eval ns g arg) as [[v g2]| |],
             (Fragment.eval ns' g' arg) as [[v' g2']| |]; try contradiction; auto.
    destruct IH as (V & G & G').
    destruct v, v'; simpl in V; try contradiction; try exact I.
    destruct V as (fr & L1 & L2). rewrite L1, L2. simpl. auto.
  - specialize (IH T).
    destruct (Fragment.eval ns g e) as [[v g2]| |],
             (Fragment.eval ns' g' e) as [[v' g2']| |]; try contradiction; auto.
    destruct IH as (V & G & G').
    destruct v, v'; simpl in V; try contradiction; try exact I.
    destruct V as (fr & L1 & L2). rewrite L1, L2. split; [|split].
    + simpl. exists (Frame (columns fr) (take n (rows fr))).
      split; apply alloc_lookup_new.
    + eapply grows_trans; [exact G|apply grows_alloc].
    + eapply grows_trans; [exact G'|apply grows_alloc].
  - discriminate.
Qed.

Lemma import_all_same (g g' : heap) (ms : list string) (ns ns' : gmap string pyval) :
  Fragment.same_globals g g' ns ns' ->
  match Fragment.import_all ns ms, Fragment.import_all ns' ms with
  | Fragment.Val ns2, Fragment.Val ns2' => Fragment.same_globals g g' ns2 ns2'
  | Fragment.Exc e1, Fragment.Exc e2 => e1 = e2
  | Fragment.Stuck, Fragment.Stuck => True
  | _, _ => False
  end.
Proof.
  revert ns ns'. induction ms as [|m ms IH]; intros ns ns' S;
    cbn [Fragment.import_all]; [exact S|].
  destruct (existsb (String.eqb m) Fragment.importable); [|reflexivity].
  apply IH. apply same_globals_insert; [exact S|simpl; reflexivity].
Qed.

Lemma exec_stmt_same (g g' : heap) (ns ns' : gmap string pyval) (s : Fragment.stmt) :
  Fragment.pure s = true ->
  patches g = [] -> patches g' = [] ->
  Fragment.same_globals g g' ns ns' ->
  match Fragment.exec_stmt ns g s, Fragment.exec_stmt ns' g' s with
  | Fragment.Val (ns2, g2), Fragment.Val (ns2', g2') =>
      Fragment.same_globals g2 g2' ns2 ns2' /\ Fragment.grows g g2 /\ Fragment.grows g' g2'
  | Fragment.Exc e1, Fragment.Exc e2 => e1 = e2
  | Fragment.Stuck, Fragment.Stuck => True
  | _, _ => False
  end.
Proof.
  intros P N N' S. unfold Fragment.exec_stmt. rewrite N, N'.
  destruct s as [x e|x|x name z|ms|]; simpl in P; try discriminate.
  - pose proof (eval_same g g' ns ns' e P S) as E.
    destruct (Fragment.eval ns g e) as [[v g2]| |],
             (Fragment.eval ns' g' e) as [[v' g2']| |]; try contradiction; auto.
    destruct E as (V & G & G'). split; [|auto].
    apply same_globals_insert; [|exact V].
    eapply same_globals_grows; eauto.
  - pose proof (lookup_name_same g g' ns ns' "__import__" S) as L.
    destruct (Fragment.lookup_name ns "__import__") as [iv| |],
             (Fragment.lookup_name ns' "__import__") as [iv'| |]; try contradiction; auto.
    destruct (same_value_builtin g g' iv iv' "__import__" L) as [-> _].
    destruct (Fragment.is_builtin "__import__" iv); [|exact I].
    pose proof (import_all_same g g' ms ns ns' S) as M.
    destruct (Fragment.import_all ns ms), (Fragment.import_all ns' ms);
      try contradiction; auto using grows_refl.
  - auto using grows_refl.
Qed.

Lemma exec_stmts_same (ss : list Fragment.stmt) (g g' : heap) (ns ns' : gmap string pyval) :
  forallb Fragment.pure ss = true ->
  patches g = [] -> patches g' = [] ->
  Fragment.same_globals g g' ns ns' ->
  match Fragment.exec_stmts ns g ss, Fragment.exec_stmts ns' g' ss with
  | Some rn, Some rn' =>
      Fragment.same_run (Some rn) (Some rn')
      /\ Fragment.grows g (heap_of rn) /\ Fragment.grows g' (heap_of rn')
  | None, None => True
  | _, _ => False
  end.
Proof.
  revert g g' ns ns'. induction ss as [|s ss IH]; intros g g' ns ns' P N N' S; simpl.
  - auto using grows_refl.
  - simpl in P. apply andb_true_iff in P as [Ps P].
    pose proof (exec_stmt_same g g' ns ns' s Ps N N' S) as E.
    destruct (Fragment.exec_stmt ns g s) as [[ns2 g2]|e1|],
             (Fragment.exec_stmt ns' g' s) as [[ns2' g2']|e2|]; try contradiction.
    + destruct E as (S2 & G & G').
      assert (N2 : patches g2 = []) by (destruct G as [_ ->]; exact N).
      assert (N2' : patches g2' = []) by (destruct G' as [_ ->]; exact N').
      specialize (IH g2 g2' ns2 ns2' P N2 N2' S2).
      destruct (Fragment.exec_stmts ns2 g2 ss) as [rn|],
               (Fragment.exec_stmts ns2' g2' ss) as [rn'|]; try contradiction; auto.
      destruct IH as (R & H1 & H2). split; [exact R|].
      split; eapply grows_trans; eauto.
    + simpl. auto using grows_refl.
    + exact I.
Qed.

Lemma classify_same (g g' : heap) (v v' : pyval) :
  Fragment.same_value g g' v v' -> classify g v = classify g' v'.
Proof.
  destruct v, v'; simpl; try contradiction; try (now intros [= <-]); try congruence.
  all: try (intros (fr & L1 & L2); now rewrite L1, L2).
  all: try (now intros [= <- <-]).
Qed.

Lemma lines_nonempty (cur s : text) : Fragment.lines cur s <> [].
Proof.
  revert cur. induction s as [|c s IH]; intros cur; simpl; [discriminate|].
  destruct (ascii_eqb c "010"%char); [discriminate|apply IH].
Qed.

Lemma parse_nonempty (c : text) (ss : list Fragment.stmt) :
  Fragment.parse c = Some ss -> ss <> [].
Proof.
  unfold Fragment.parse. pose proof (lines_nonempty [] c) as N.
  destruct (Fragment.lines [] c) as [|l ls]; [congruence|]. cbn [Fragment.parse_lines].
  destruct (Fragment.parse_line Fragment.syntax l); [|discriminate].
  destruct (Fragment.parse_lines ls); [|discriminate]. now intros [= <-].
Qed.

Lemma exec_globals_values (df : loc) (x : string) (v : pyval) :
  exec_globals (namespace df) !! x = Some v -> v = VFrame df \/ exists n, v = VModule n.
Proof.
  rewrite exec_globals_namespace. unfold namespace. intros L.
  repeat (apply lookup_insert_Some in L as [[_ <-]|[_ L]]; [eauto|]).
  rewrite lookup_empty in L. discriminate.
Qed.

Lemma same_globals_start (df : loc) (g g' : heap) (fr : frame) :
  g !! df = Some fr -> g' !! df = Some fr ->
  Fragment.same_globals g g' (exec_globals (namespace df)) (exec_globals (namespace df)).
Proof.
  intros L L' x. destruct (exec_globals (namespace df) !! x) as [v|] eqn:E; [|exact I].
  destruct (exec_globals_values df x v E) as [->|[n ->]]; simpl; eauto.
Qed.

Lemma exec_stmts_tampered (ns : gmap string pyval) (g : heap) (s : Fragment.stmt)
    (ss : list Fragment.stmt) :
  patches g <> [] -> Fragment.exec_stmts ns g (s :: ss) = None.
Proof.
  intros N. simpl. unfold Fragment.exec_stmt. destruct (patches g); [congruence|reflexivity].
Qed.




(** An accepted expression that reads the clock gives, with the dataset
    untouched, another outcome at another moment. *)
Lemma clock_reading_differs :
  execute_pandas_code Fragment.run_code (txt "result = str(datetime.datetime.now())") 0%nat
    sample_heap
  <> execute_pandas_code Fragment.run_code (txt "result = str(datetime.datetime.now())") 0%nat
       (at_time "2023-07-02 09:30:00.000000" sample_heap)
  /\ is_safe_code (txt "result = str(datetime.datetime.now())") = true.
Proof. split; [vm_compute; discriminate|reflexivity]. Qed.

(** * Further properties of the code *)

(** ** The validator on surrounding text and letter case *)

Lemma search_spec (r : Re.regex) (s : text) :
  Re.search r s = true <-> exists a b, s = a ++ b /\ Re.match_here r b = true.
Proof.
  split.
  - induction s as [|c s IH]; simpl; intros E.
    + rewrite orb_false_r in E. now exists [], [].
    + apply orb_true_iff in E as [E|E].
      * now exists [], (c :: s).
      * destruct (IH E) as (a & b & -> & M). now exists (c :: a), b.
  - intros (a & b & -> & M). now apply search_app.
Qed.

Lemma lower_char_idem (c : ascii) : lower_char (lower_char c) = lower_char c.
Proof. destruct c as [[] [] [] [] [] [] [] []]; reflexivity. Qed.

Lemma is_space_lower_char (c : ascii) : is_space (lower_char c) = is_space c.
Proof. destruct c as [[] [] [] [] [] [] [] []]; reflexivity. Qed.

Lemma after_lit_lower (p s : text) :
  Re.after_lit p (lower s) = option_map lower (Re.after_lit p s).
Proof.
  revert s. induction p as [|a p IH]; intros s; simpl; [reflexivity|].
  destruct s as [|b s]; simpl; [reflexivity|].
  rewrite lower_char_idem. destruct (ascii_eqb (lower_char a) (lower_char b)); auto.
Qed.

Lemma looks_at_lower (s alt : text) : Re.looks_at (lower s) alt = Re.looks_at s alt.
Proof.
  unfold Re.looks_at. rewrite after_lit_lower. now destruct (Re.after_lit alt s).
Qed.

Lemma spaces_then_lower (k k' : text -> bool) (s : text) :
  (forall t, k' (lower t) = k t) ->
  Re.spaces_then k' (lower s) = Re.spaces_then k s.
Proof.
  intros K. induction s as [|c s IH]; simpl.
  - now rewrite <- (K []).
  - pose proof (K (c :: s)) as Kc. simpl in Kc.
    now rewrite Kc, is_space_lower_char, IH.
Qed.

Lemma match_here_lower (r : Re.regex) (s : text) :
  Re.match_here r (lower s) = Re.match_here r s.
Proof.
  revert s. induction r as [|[p| | |alts] r IH]; intros s; simpl.
  - reflexivity.
  - rewrite after_lit_lower. destruct (Re.after_lit p s); simpl; auto.
  - now apply spaces_then_lower.
  - destruct s as [|c s]; simpl; [reflexivity|].
    rewrite is_space_lower_char. f_equal. now apply spaces_then_lower.
  - rewrite IH. f_equal. f_equal.
    induction alts as [|alt alts IHa]; simpl; [reflexivity|].
    now rewrite looks_at_lower, IHa.
Qed.

Lemma search_lower (r : Re.regex) (s : text) : Re.search r (lower s) = Re.search r s.
Proof.
  induction s as [|c s IH].
  - reflexivity.
  - change (lower (c :: s)) with (lower_char c :: lower s).
    change (Re.search r (lower_char c :: lower s))
      with (Re.match_here r (lower (c :: s)) || Re.search r (lower s)).
    rewrite match_here_lower, IH. reflexivity.
Qed.

Lemma scan_patterns_lower (ps : list Re.regex) (c : text) :
  scan_patterns ps (lower c) = scan_patterns ps c.
Proof.
  induction ps as [|p ps IH]; simpl; [reflexivity|].
  now rewrite search_lower, IH.
Qed.

(** X1.  On an expression made of code points below 256 the verdict of the
    validator does not depend on letter case: the expression and its
    lower-cased text get the same verdict.  (Above 255 this fails: U+0130
    matches [i] under [re.IGNORECASE] and lower-cases to two code points.) *)
Theorem is_safe_code_lower (c : text) : is_safe_code (lower c) = is_safe_code c.
Proof. unfold is_safe_code. apply scan_patterns_lower. Qed.

(** X2.  A rejected expression stays rejected whatever text is put in front
    of it. *)
Theorem is_safe_code_prepend (a c : text) :
  is_safe_code c = false -> is_safe_code (a ++ c) = false.
Proof.
  intros U. apply scan_patterns_false in U as (p & I & S).
  apply scan_patterns_false. exists p. split; [exact I|].
  apply search_spec in S as (a' & b & -> & M).
  rewrite app_assoc. now apply search_app.
Qed.

Lemma is_safe_code_prepend_witness :
  is_safe_code (txt "result = df.head(3); " ++ txt "import os") = false.
Proof. apply (is_safe_code_prepend (txt "result = df.head(3); ") (txt "import os")). reflexivity. Defined.

Lemma literal_rejected (w a b : text) :
  In [Re.Lit w] dangerous_patterns -> is_safe_code (a ++ w ++ b) = false.
Proof.
  intros I. apply scan_patterns_false. exists [Re.Lit w]. split; [exact I|].
  apply search_app. simpl. now rewrite after_lit_app.
Qed.

Lemma call_rejected (f a ws b : text) :
  In [Re.Lit f; Re.Spaces0; Re.Lit (txt "(")] dangerous_patterns ->
  forallb is_space ws = true ->
  is_safe_code (a ++ f ++ ws ++ txt "(" ++ b) = false.
Proof.
  intros I W. apply scan_patterns_false.
  exists [Re.Lit f; Re.Spaces0; Re.Lit (txt "(")]. split; [exact I|].
  apply search_app. cbn [Re.match_here]. rewrite after_lit_app.
  apply spaces_then_app; [exact W|]. now rewrite after_lit_app.
Qed.

(** X3.  An expression whose lower-cased text contains one of the words
    [__import__], [getattr], [setattr], [delattr], [.system], [os.],
    [subprocess], [shutil], [pickle] anywhere, also inside a longer name, is
    rejected. *)
Theorem blocked_word_rejected (c w : text) :
  In w [txt "__import__"; txt "getattr"; txt "setattr"; txt "delattr"; txt ".system";
        txt "os."; txt "subprocess"; txt "shutil"; txt "pickle"] ->
  contains (lower c) w = true ->
  is_safe_code c = false.
Proof.
  intros I C. unfold is_safe_code. rewrite <- scan_patterns_lower.
  fold (is_safe_code (lower c)).
  apply contains_spec in C as (a & b & ->).
  apply literal_rejected. simpl in I |- *.
  repeat (destruct I as [<-|I]; [tauto|]). destruct I.
Qed.

Lemma blocked_word_rejected_witness :
  is_safe_code (txt "result = df.Pos.sum()") = false.
Proof.
  apply (blocked_word_rejected (txt "result = df.Pos.sum()") (txt "os.")).
  - simpl. tauto.
  - reflexivity.
Defined.

(** X4.  An expression whose lower-cased text contains one of the names
    [open], [exec], [eval], [globals], [locals], [dir], [vars] followed by any
    run of white space and an opening parenthesis is rejected. *)
Theorem blocked_call_rejected (c f a ws b : text) :
  In f [txt "open"; txt "exec"; txt "eval"; txt "globals"; txt "locals"; txt "dir";
        txt "vars"] ->
  forallb is_space ws = true ->
  lower c = a ++ f ++ ws ++ txt "(" ++ b ->
  is_safe_code c = false.
Proof.
  intros I W E. unfold is_safe_code. rewrite <- scan_patterns_lower, E.
  fold (is_safe_code (a ++ f ++ ws ++ txt "(" ++ b)).
  apply call_rejected; [|exact W]. simpl in I |- *.
  repeat (destruct I as [<-|I]; [tauto|]). destruct I.
Qed.

Lemma blocked_call_rejected_witness :
  is_safe_code (txt "result = df.Eval  (1)") = false.
Proof.
  apply (blocked_call_rejected (txt "result = df.Eval  (1)") (txt "eval")
           (txt "result = df.") (txt "  ") (txt "1)")).
  - simpl. tauto.
  - reflexivity.
  - reflexivity.
Defined.

Lemma space_not_allowed_prefix (c : ascii) (s alt : text) :
  is_space c = true -> In alt allowed_modules -> Re.looks_at (c :: s) alt = false.
Proof.
  intros S I. simpl in I. revert S.
  destruct I as [<-|[<-|[<-|[]]]];
    destruct c as [[] [] [] [] [] [] [] []]; intros S;
    first [reflexivity | vm_compute in S; discriminate].
Qed.

Lemma no_allowed_after_space (c : ascii) (s : text) :
  is_space c = true -> existsb (Re.looks_at (c :: s)) allowed_modules = false.
Proof.
  intros S. unfold allowed_modules. simpl existsb.
  rewrite !(space_not_allowed_prefix c s) by (try exact S; simpl; tauto). reflexivity.
Qed.

Lemma not_ahead_here (alts : list text) (s : text) :
  Re.match_here [Re.NotAhead alts] s = negb (existsb (Re.looks_at s) alts).
Proof. simpl. apply andb_true_r. Qed.

Lemma spaces_then_ext (k k' : text -> bool) (s : text) :
  (forall t, k t = k' t) -> Re.spaces_then k s = Re.spaces_then k' s.
Proof.
  intros K. induction s as [|c s IH]; simpl; rewrite K; [reflexivity|].
  now rewrite IH.
Qed.

Lemma keyword_pattern_here (kw : text) (alts : list text) (c : ascii) (s : text) :
  Re.match_here [Re.Lit kw; Re.Spaces1; Re.NotAhead alts] (kw ++ c :: s)
  = is_space c && Re.spaces_then (fun t => negb (existsb (Re.looks_at t) alts)) s.
Proof.
  simpl. rewrite after_lit_app. f_equal.
  apply spaces_then_ext. intros t. apply andb_true_r.
Qed.

Lemma spaces_then_here (k : text -> bool) (s : text) :
  k s = true -> Re.spaces_then k s = true.
Proof. destruct s; simpl; intros ->; reflexivity. Qed.

(** X5.  An [import] or [from] followed by white space is rejected when
    the white space is two or more characters long, whatever module follows,
    and when what follows the white space does not begin with [pandas],
    [numpy] or [datetime]. *)
Theorem import_statement_rejected (kw a ws rest : text) :
  In kw [txt "import"; txt "from"] ->
  ws <> [] ->
  forallb is_space ws = true ->
  (2 <= length ws)%nat \/ existsb (Re.looks_at rest) allowed_modules = false ->
  is_safe_code (a ++ kw ++ ws ++ rest) = false.
Proof.
  intros I N W C. apply scan_patterns_false.
  exists [Re.Lit kw; Re.Spaces1; Re.NotAhead allowed_modules]. split.
  { simpl in I |- *. destruct I as [<-|[<-|[]]]; tauto. }
  apply search_app.
  destruct ws as [|c ws]; [congruence|]. simpl in W.
  apply andb_true_iff in W as [Wc W].
  change ((c :: ws) ++ rest) with (c :: ws ++ rest).
  rewrite keyword_pattern_here, Wc, andb_true_l.
  destruct C as [L|E].
  - destruct ws as [|c' ws]; [simpl in L; lia|].
    change ((c' :: ws) ++ rest) with (c' :: ws ++ rest).
    simpl in W. apply andb_true_iff in W as [Wc' W].
    apply spaces_then_here. cbv beta.
    now rewrite (no_allowed_after_space c' (ws ++ rest)).
  - apply spaces_then_app; [exact W|]. cbv beta. now rewrite E.
Qed.

Lemma import_statement_rejected_witness :
  is_safe_code (txt "import  pandas as pd") = false.
Proof.
  apply (import_statement_rejected (txt "import") [] (txt "  ") (txt "pandas as pd")).
  - simpl. tauto.
  - discriminate.
  - reflexivity.
  - left. simpl. lia.
Defined.

(** ** The choice made by the local translator *)

Lemma find_best_snoc (q : text) (ps : list pattern) (x : pattern) (st : option pattern * nat) :
  find_best q (ps ++ [x]) st = best_step q (find_best q ps st) x.
Proof. unfold find_best. now rewrite fold_left_app. Qed.

Lemma find_best_inv (q : text) (ps : list pattern) :
  match find_best q ps (None, 0%nat) with
  | (None, n) => n = 0%nat /\ Forall (fun p => matches q p = 0%nat) ps
  | (Some p, n) =>
      exists pre post, ps = pre ++ p :: post /\ matches q p = n /\ (0 < n)%nat
                       /\ Forall (fun p' => (matches q p' < n)%nat) pre
                       /\ Forall (fun p' => (matches q p' <= n)%nat) post
  end.
Proof.
  induction ps as [|x ps IH] using rev_ind.
  - simpl. auto.
  - rewrite find_best_snoc. destruct (find_best q ps (None, 0%nat)) as [[p|] n].
    + destruct IH as (pre & post & -> & M & P & Fpre & Fpost).
      unfold best_step. cbv zeta. simpl snd.
      destruct (n <? matches q x)%nat eqn:L; simpl.
      * apply Nat.ltb_lt in L.
        assert (Z : (0 <? matches q x)%nat = true) by (apply Nat.ltb_lt; lia).
        rewrite Z. exists (pre ++ p :: post), []. split; [reflexivity|].
        split; [reflexivity|]. split; [lia|]. split; [|constructor].
        apply List.Forall_app. split.
        -- eapply List.Forall_impl; [|exact Fpre]. simpl. intros; lia.
        -- constructor; [lia|].
           eapply List.Forall_impl; [|exact Fpost]. simpl. intros; lia.
      * apply Nat.ltb_ge in L. exists pre, (post ++ [x]).
        split; [now rewrite <- app_assoc|]. split; [exact M|]. split; [exact P|].
        split; [exact Fpre|]. apply List.Forall_app. split; [exact Fpost|].
        constructor; [exact L|constructor].
    + destruct IH as [-> F]. unfold best_step. cbv zeta. simpl snd.
      destruct (0 <? matches q x)%nat eqn:L; simpl.
      * apply Nat.ltb_lt in L. exists ps, []. split; [reflexivity|].
        split; [reflexivity|]. split; [exact L|]. split; [|constructor].
        eapply List.Forall_impl; [|exact F]. simpl. intros; lia.
      * apply Nat.ltb_ge in L. split; [reflexivity|].
        apply List.Forall_app. split; [exact F|]. constructor; [lia|constructor].
Qed.

(** X6.  The translator returns the default preview exactly when no keyword
    of any entry occurs in the lower-cased query; otherwise it returns the
    code of the first catalog entry among those with the greatest number of
    keywords occurring in it. *)
Theorem parse_query_locally_selection (q : text) (cols : list string) :
  (parse_query_locally q cols = (default_code, None)
   /\ forall p, In p patterns -> matches (lower q) p = 0%nat)
  \/ (exists pre p post,
        patterns = pre ++ p :: post
        /\ parse_query_locally q cols = (code p, None)
        /\ (0 < matches (lower q) p)%nat
        /\ Forall (fun p' => (matches (lower q) p' < matches (lower q) p)%nat) pre
        /\ Forall (fun p' => (matches (lower q) p' <= matches (lower q) p)%nat) post).
Proof.
  pose proof (find_best_inv (strip (lower q)) patterns) as I.
  unfold parse_query_locally.
  destruct (find_best (strip (lower q)) patterns (None, 0%nat)) as [[p|] n]; simpl.
  - right. destruct I as (pre & post & E & M & P & Fpre & Fpost).
    assert (S : forall p', In p' patterns ->
                           matches (strip (lower q)) p' = matches (lower q) p')
      by (intros; now apply matches_strip).
    assert (Ip : In p patterns) by (rewrite E; apply in_or_app; simpl; auto).
    exists pre, p, post. split; [exact E|]. split; [reflexivity|].
    rewrite <- (S p Ip), M. split; [exact P|]. split.
    + rewrite List.Forall_forall in Fpre |- *. intros p' I'.
      rewrite <- S; [now apply Fpre|]. rewrite E. apply in_or_app. auto.
    + rewrite List.Forall_forall in Fpost |- *. intros p' I'.
      rewrite <- S; [now apply Fpost|]. rewrite E. apply in_or_app. simpl. auto.
  - left. destruct I as [_ F]. split; [reflexivity|].
    intros p Ip. rewrite <- matches_strip by exact Ip.
    rewrite List.Forall_forall in F. now apply F.
Qed.

(** ** The [/ask] route *)

Lemma lstrip_nil_iff (s : text) : lstrip s = [] <-> forallb is_space s = true.
Proof.
  induction s as [|c s IH]; simpl; [tauto|].
  destruct (is_space c); simpl; [exact IH|]. split; discriminate.
Qed.

Lemma forallb_lstrip (s : text) :
  forallb is_space (lstrip s) = forallb is_space s.
Proof.
  induction s as [|c s IH]; simpl; [reflexivity|].
  destruct (is_space c) eqn:E; simpl; [exact IH|]. now rewrite E.
Qed.

Lemma forallb_rev (s : text) : forallb is_space (rev s) = forallb is_space s.
Proof.
  induction s as [|c s IH]; simpl; [reflexivity|].
  rewrite forallb_app, IH. simpl. rewrite andb_true_r. apply andb_comm.
Qed.

Lemma strip_nil_iff (s : text) : strip s = [] <-> forallb is_space s = true.
Proof.
  unfold strip, rstrip. rewrite <- forallb_lstrip, <- forallb_rev, <- lstrip_nil_iff.
  split.
  - intros E. apply (f_equal (@rev ascii)) in E. now rewrite rev_involutive in E.
  - intros ->. reflexivity.
Qed.

Lemma exec_error_message_truthy (msg : string) :
  truthy (Some (exec_error_message msg)) = true.
Proof. reflexivity. Qed.



(** With the query already read from the body, the route answers with
    status 400 exactly when there is no query or the query is empty or all
    white space. *)
Lemma ask_bad_query
    (configured : bool) (create : text -> list string -> reply)
    (json_loads : text -> option pyjson) (run_code : interpreter)
    (sales_data : option loc) (query : option text) (h : heap) :
  (query = None ->
   ask configured create json_loads run_code sales_data query h
   = Some (Error 400 "No query provided", h))
  /\ (forall q, query = Some q -> forallb is_space q = true ->
      ask configured create json_loads run_code sales_data query h
      = Some (Error 400 "Empty query provided", h))
  /\ (forall msg h',
      ask configured create json_loads run_code sales_data query h
      = Some (Error 400 msg, h') ->
      h' = h /\ (query = None \/ exists q, query = Some q /\ forallb is_space q = true)).
Proof.
  split; [intros ->; reflexivity|]. split.
  - intros q -> W. apply strip_nil_iff in W. unfold ask. now rewrite W.
  - intros msg h' E. unfold ask in E. destruct query as [q|].
    + destruct (strip q) as [|x q'] eqn:S.
      * injection E as <- <-. split; [reflexivity|]. right. exists q.
        split; [reflexivity|]. now apply strip_nil_iff.
      * exfalso. destruct sales_data as [df|]; [|discriminate].
        destruct (h !! df) as [fr|]; [|discriminate].
        destruct (generate_pandas_code _ _ _ _ _) as [c e].
        destruct (truthy e); [discriminate|].
        destruct c; try discriminate.
        destruct (execute_pandas_code run_code s df h) as [[[r e'|ex] h1]|];
          try discriminate.
        destruct (truthy e'); discriminate.
    + injection E as <- <-. auto.
Qed.

(** X8.  The route answers with status 400 exactly in these cases: the
    body is a falsy value or a container that does not hold 'query' (message
    'No query provided'), or it is an object whose 'query' is a string that is
    empty or all white space (message 'Empty query provided').  It leaves the
    store as it is, and decides this before looking at the dataset.  A body
    that cannot be decoded, a number, a boolean, a list or string that holds
    'query', and an object whose 'query' is not a string get status 500. *)
Theorem ask_bad_request
    (configured : bool) (create : text -> list string -> reply)
    (json_loads : text -> option pyjson) (run_code : interpreter)
    (nonzero : text -> bool)
    (sales_data : option loc) (body : request) (h h' : heap) (msg : string) :
  ask_request configured create json_loads run_code nonzero sales_data body h
  = Some (Error 400 msg, h')
  <->
  h' = h
  /\ exists data, body = Body data
      /\ ((msg = "No query provided"
           /\ (falsy nonzero data = true \/ query_absent data = Some true))
          \/ (msg = "Empty query provided"
              /\ falsy nonzero data = false
              /\ exists items q, data = JObj items
                                 /\ dict_get (txt "query") items = Some (JStr q)
                                 /\ forallb is_space q = true)).
Proof.
  pose proof (fun q => ask_bad_query configured create json_loads run_code sales_data q h)
    as A.
  split.
  - unfold ask_request. destruct body as [|data]; [discriminate|].
    destruct (falsy nonzero data) eqn:F.
    + intros E. destruct (proj2 (proj2 (A None)) msg h' E) as [-> _].
      rewrite (proj1 (A None) eq_refl) in E. injection E as <-.
      split; [reflexivity|]. exists data. split; [reflexivity|]. left. auto.
    + destruct (query_absent data) as [[|]|] eqn:Q; [| |discriminate].
      * intros E. destruct (proj2 (proj2 (A None)) msg h' E) as [-> _].
        rewrite (proj1 (A None) eq_refl) in E. injection E as <-.
        split; [reflexivity|]. exists data. split; [reflexivity|]. left. auto.
      * destruct data as [| | | | |items]; try discriminate.
        destruct (dict_get (txt "query") items) as [[| | |q| |]|] eqn:D; try discriminate.
        intros E. destruct (proj2 (proj2 (A (Some q))) msg h' E) as [-> [N|(q' & Eq & W)]];
          [discriminate|]. injection Eq as <-.
        rewrite (proj1 (proj2 (A (Some q))) q eq_refl W) in E. injection E as <-.
        split; [reflexivity|]. exists (JObj items). split; [reflexivity|]. right.
        split; [reflexivity|]. split; [exact F|]. now exists items, q.
  - intros (-> & data & -> & [(-> & [F|Q])|(-> & F & items & q & -> & D & W)]).
    + unfold ask_request. rewrite F. exact (proj1 (A None) eq_refl).
    + unfold ask_request. destruct (falsy nonzero data); [exact (proj1 (A None) eq_refl)|].
      rewrite Q. exact (proj1 (A None) eq_refl).
    + unfold ask_request. rewrite F. unfold query_absent. rewrite D.
      exact (proj1 (proj2 (A (Some q))) q eq_refl W).
Qed.

(** X9.  A successful answer carries an expression that the validator
    accepts, the stripped query, and a result: no expression reaches the
    answer without having passed [is_safe_code]. *)
Theorem ask_success_validated
    (configured : bool) (create : text -> list string -> reply)
    (json_loads : text -> option pyjson) (run_code : interpreter)
    (sales_data : option loc) (query : option text) (h h' : heap)
    (result : option outcome) (generated_code q : text) :
  ask configured create json_loads run_code sales_data query h
  = Some (Success result generated_code q, h') ->
  is_safe_code generated_code = true
  /\ (exists o, result = Some o)
  /\ (exists q0, query = Some q0 /\ q = strip q0)
  /\ (exists df, sales_data = Some df
                 /\ execute_pandas_code run_code generated_code df h
                    = Some (Return result None, h')).
Proof.
  unfold ask. intros E. destruct query as [q0|]; [|discriminate].
  destruct (strip q0) as [|x q'] eqn:S; [discriminate|].
  destruct sales_data as [df|]; [|discriminate].
  destruct (h !! df) as [fr|]; [|discriminate].
  destruct (generate_pandas_code _ _ _ _ _) as [c e].
  destruct (truthy e); [discriminate|].
  destruct c as [| | |code| |]; try discriminate.
  destruct (execute_pandas_code run_code code df h) as [[[r e'|ex] h1]|] eqn:X;
    try discriminate.
  destruct (truthy e') eqn:T; [discriminate|].
  injection E as <- <- <- <-.
  pose proof X as X0.
  destruct (is_safe_code code) eqn:U.
  - rewrite (execute_safe run_code code df h U) in X.
    destruct (run_code code _ h) as [[ns h2|[[|] msg] h2]|]; try discriminate.
    + destruct (ns !! "result") as [v|].
      * destruct (convert h2 v) as [[o|m]|]; [| |discriminate].
        -- injection X as <- <- <-.
           split; [reflexivity|]. split; [now exists o|].
           split; [now exists q0|]. exists df. split; [reflexivity|exact X0].
        -- injection X as <- <- <-. discriminate.
      * injection X as <- <- <-. discriminate.
    + destruct (builtins_intact h2); [|discriminate].
      injection X as <- <- <-. discriminate.
    + destruct (builtins_intact h2); discriminate.
  - rewrite (execute_unsafe run_code code df h U) in X.
    injection X as <- <- <-. discriminate.
Qed.

Lemma ask_success_validated_witness :
  is_safe_code (txt "result = df.head(10)") = true.
Proof.
  refine (proj1 (ask_success_validated false (fun _ _ => CallRaises) (fun _ => None)
                   Fragment.run_code (Some 0%nat) (Some (txt " show me something "))
                   sample_heap _ _ (txt "result = df.head(10)") (txt "show me something") _)).
  vm_compute. reflexivity.
Defined.

(** X10.  When the remote reply decodes to an object whose 'code' value is
    not a string (a number, a boolean, null, a list or an object), the route
    answers 'Internal server error' with status 500 and nothing is run. *)
Theorem ask_code_not_a_string
    (create : text -> list string -> reply) (json_loads : text -> option pyjson)
    (run_code : interpreter) (df : loc) (fr : frame) (h : heap)
    (q0 content : text) (items : list (text * pyjson)) (v : pyjson) :
  h !! df = Some fr ->
  strip q0 <> [] ->
  create (strip q0) (columns fr) = Content (Some content) ->
  json_loads content = Some (JObj items) ->
  dict_get (txt "code") items = Some v ->
  (forall s, v <> JStr s) ->
  ask true create json_loads run_code (Some df) (Some q0) h
  = Some (Error 500 "Internal server error", h).
Proof.
  intros Hdf Q C J D V. unfold ask.
  destruct (strip q0) as [|x q] eqn:S; [congruence|].
  rewrite Hdf. unfold generate_pandas_code. simpl negb. cbv iota.
  rewrite C, J. unfold code_in, code_of. rewrite D. simpl.
  destruct v; try reflexivity. now destruct (V s).
Qed.

Lemma ask_code_not_a_string_witness :
  ask true (fun _ _ => Content (Some (txtq "{`code`: 5}")))
      (fun _ => Some (JObj [(txt "code", JNum (txt "5"))]))
      Fragment.run_code (Some 0%nat) (Some (txt "total sales")) sample_heap
  = Some (Error 500 "Internal server error", sample_heap).
Proof.
  apply (ask_code_not_a_string _ _ Fragment.run_code 0%nat sample_frame sample_heap
           (txt "total sales") (txtq "{`code`: 5}") [(txt "code", JNum (txt "5"))]
           (JNum (txt "5"))).
  - reflexivity.
  - vm_compute. discriminate.
  - reflexivity.
  - reflexivity.
  - reflexivity.
  - discriminate.
Defined.

Lemma catalog_codes_safe (p : pattern) : In p patterns -> is_safe_code (code p) = true.
Proof.
  assert (A : forallb (fun p => is_safe_code (code p)) patterns = true)
    by (vm_compute; reflexivity).
  rewrite forallb_forall in A. apply A.
Qed.

Lemma catalog_codes_assign (p : pattern) :
  In p patterns -> exists rest, code p = txt "result = " ++ rest.
Proof.
  intros I. simpl in I.
  repeat (destruct I as [<-|I]; [eexists; reflexivity|]). destruct I.
Qed.

Lemma parse_query_locally_in_catalog (q : text) (cols : list string) :
  fst (parse_query_locally q cols) = default_code
  \/ exists p, In p patterns /\ fst (parse_query_locally q cols) = code p.
Proof.
  pose proof (find_best_inv (strip (lower q)) patterns) as I.
  unfold parse_query_locally.
  destruct (find_best (strip (lower q)) patterns (None, 0%nat)) as [[p|] n]; cbn [fst].
  - right. destruct I as (pre & post & E & _). exists p. split; [|reflexivity].
    rewrite E. apply in_or_app. simpl. auto.
  - now left.
Qed.

(** X11.  Every expression the local translator returns, for any query, is
    accepted by the validator and begins with an assignment to [result]. *)
Theorem local_code_accepted (q : text) (cols : list string) :
  is_safe_code (fst (parse_query_locally q cols)) = true
  /\ exists rest, fst (parse_query_locally q cols) = txt "result = " ++ rest.
Proof.
  destruct (parse_query_locally_in_catalog q cols) as [E|(p & Ip & E)]; rewrite E.
  - split; [reflexivity|]. now exists (txt "df.head(10)").
  - split; [now apply catalog_codes_safe|now apply catalog_codes_assign].
Qed.

(** X12.  Without a configured remote generator the route consults neither
    the remote call nor the JSON decoder, and its answer is never the
    generation failure nor the validation failure. *)
Theorem ask_not_configured
    (create create' : text -> list string -> reply)
    (json_loads json_loads' : text -> option pyjson) (run_code : interpreter)
    (sales_data : option loc) (query : option text) (h : heap) :
  ask false create json_loads run_code sales_data query h
  = ask false create' json_loads' run_code sales_data query h
  /\ (forall r h',
        ask false create json_loads run_code sales_data query h = Some (r, h') ->
        r <> Error 500 "Generated code contains unsafe operations"
        /\ forall m, r <> Error 500 ("Failed to generate code: " +:+ m)).
Proof.
  split.
  - unfold ask. destruct query as [q0|]; [|reflexivity].
    destruct (strip q0) as [|x q]; [reflexivity|].
    destruct sales_data as [df|]; [|reflexivity].
    destruct (h !! df) as [fr|]; [|reflexivity].
    now rewrite !generate_not_configured.
  - intros r h' E. unfold ask in E. destruct query as [q0|].
    2: { injection E as <- _. split; [|intros m]; discriminate. }
    destruct (strip q0) as [|x q].
    { injection E as <- _. split; [|intros m]; discriminate. }
    destruct sales_data as [df|].
    2: { injection E as <- _. split; [|intros m]; discriminate. }
    destruct (h !! df) as [fr|]; [|discriminate].
    rewrite generate_not_configured in E. cbn [truthy] in E.
    assert (U : is_safe_code (fst (parse_query_locally (x :: q) (columns fr))) = true).
    { destruct (parse_query_locally_in_catalog (x :: q) (columns fr))
        as [D|(p & Ip & D)]; rewrite D; [reflexivity|now apply catalog_codes_safe]. }
    rewrite (execute_safe run_code _ df h U) in E.
    destruct (run_code _ _ h) as [[ns h2|[[|] msg] h2]|]; try discriminate.
    + destruct (ns !! "result") as [v|].
      * destruct (convert h2 v) as [[o|m']|]; [| |discriminate];
          injection E as <- _; (split; [|intros m]; discriminate).
      * injection E as <- _. split; [|intros m]; discriminate.
    + destruct (builtins_intact h2); [|discriminate].
      injection E as <- _. split; [|intros m]; discriminate.
    + destruct (builtins_intact h2); [|discriminate].
      injection E as <- _. split; [|intros m]; discriminate.
Qed.

(** X13.  The coordinator returns an error message exactly when the remote
    generator is configured, the call returned, and either the content is
    [None] or the decoded value is a container without 'code'; it then
    returns no code.  In every other case it returns a code and no error. *)
Theorem generate_pandas_code_error
    (configured : bool) (create : text -> list string -> reply)
    (json_loads : text -> option pyjson) (q : text) (cols : list string) :
  (snd (generate_pandas_code configured create json_loads q cols) <> None <->
   configured = true
   /\ (create q cols = Content None
       \/ exists content r, create q cols = Content (Some content)
                            /\ json_loads content = Some r
                            /\ code_in r = Some false))
  /\ (snd (generate_pandas_code configured create json_loads q cols) <> None ->
      fst (generate_pandas_code configured create json_loads q cols) = JNull).
Proof.
  unfold generate_pandas_code. destruct configured; simpl negb; cbv iota.
  2: { rewrite fallback_code. simpl. split; [|congruence].
       split; [congruence|]. intros [? _]. discriminate. }
  destruct (create q cols) as [|[content|]] eqn:C.
  - rewrite fallback_code. simpl. split; [|congruence].
    split; [congruence|]. intros [_ [?|(? & ? & ? & _)]]; discriminate.
  - destruct (json_loads content) as [r|] eqn:J.
    + destruct (code_in r) as [[|]|] eqn:K.
      * destruct (code_of r) as [c|]; [|rewrite fallback_code]; simpl;
          (split; [|congruence]); (split; [congruence|]);
          intros [_ [?|(c' & r' & Ec & Ej & Ek)]]; try discriminate;
          injection Ec as <-; rewrite J in Ej; injection Ej as <-; congruence.
      * simpl. split; [|reflexivity]. split; [|discriminate].
        intros _. split; [reflexivity|]. right. now exists content, r.
      * rewrite fallback_code. simpl. split; [|congruence]. split; [congruence|].
        intros [_ [?|(c' & r' & Ec & Ej & Ek)]]; try discriminate.
        injection Ec as <-. rewrite J in Ej. injection Ej as <-. congruence.
    + rewrite fallback_code. simpl. split; [|congruence]. split; [congruence|].
      intros [_ [?|(c' & r' & Ec & Ej & Ek)]]; try discriminate.
      injection Ec as <-. rewrite J in Ej. discriminate.
  - simpl. split; [|reflexivity]. split; [|discriminate].
    intros _. split; [reflexivity|]. now left.
Qed.

(** ** Stripping *)

Lemma lstrip_fixed (s : text) :
  match s with [] => True | c :: _ => is_space c = false end -> lstrip s = s.
Proof. destruct s as [|c s]; simpl; [reflexivity|]. now intros ->. Qed.

Lemma lstrip_head (s : text) :
  match lstrip s with [] => True | c :: _ => is_space c = false end.
Proof.
  induction s as [|c s IH]; simpl; [exact I|].
  destruct (is_space c) eqn:E; [exact IH|exact E].
Qed.

Lemma lstrip_idem (s : text) : lstrip (lstrip s) = lstrip s.
Proof. apply lstrip_fixed, lstrip_head. Qed.

Lemma strip_idem (s : text) : strip (strip s) = strip s.
Proof.
  unfold strip. set (u := lstrip s).
  assert (L : lstrip (rstrip u) = rstrip u).
  { apply lstrip_fixed. destruct (rstrip_prefix u) as [b E].
    pose proof (lstrip_head s) as H. fold u in H.
    destruct (rstrip u) as [|c v]; [exact I|]. rewrite E in H. exact H. }
  rewrite L. unfold rstrip. now rewrite rev_involutive, lstrip_idem.
Qed.

(** X14.  The route strips the query before anything else, so white space
    around the query never changes the answer: the stripped query gets the
    same answer as the query. *)
Theorem ask_strip
    (configured : bool) (create : text -> list string -> reply)
    (json_loads : text -> option pyjson) (run_code : interpreter)
    (sales_data : option loc) (q0 : text) (h : heap) :
  ask configured create json_loads run_code sales_data (Some (strip q0)) h
  = ask configured create json_loads run_code sales_data (Some q0) h.
Proof. unfold ask. now rewrite strip_idem. Qed.

(** ** What the validator accepts *)

Lemma lower_app (a b : text) : lower (a ++ b) = lower a ++ lower b.
Proof. apply map_app. Qed.

Lemma after_lit_spec (p s r : text) :
  Re.after_lit p s = Some r -> exists pre, s = pre ++ r /\ lower pre = lower p.
Proof.
  revert s. induction p as [|a p IH]; intros s; simpl.
  - intros [= ->]. now exists [].
  - destruct s as [|b s]; [discriminate|].
    destruct (ascii_eqb (lower_char a) (lower_char b)) eqn:E; [|discriminate].
    intros A. destruct (IH s A) as (pre & -> & L). exists (b :: pre).
    split; [reflexivity|]. simpl. apply ascii_eqb_eq in E. now rewrite E, L.
Qed.

Lemma lit_search_contains (w : text) (r : Re.regex) (c : text) :
  Re.search (Re.Lit w :: r) c = true -> contains (lower c) (lower w) = true.
Proof.
  intros S. apply search_spec in S as (a & b & -> & M). simpl in M.
  destruct (Re.after_lit w b) as [rest|] eqn:A; [|discriminate].
  destruct (after_lit_spec w b rest A) as (pre & -> & L).
  apply contains_spec. exists (lower a), (lower rest).
  now rewrite !lower_app, L.
Qed.

(** X15.  An expression made of code points below 256 whose lower-cased
    text contains none of the eighteen words the patterns begin with is
    accepted.  (Above 255 this fails: U+017F matches [s] and U+212A matches
    [k] under [re.IGNORECASE] without lower-casing to them.) *)
Theorem accepted_without_blocked_words (c : text) :
  (forall w, In w blocked_words -> contains (lower c) w = false) ->
  is_safe_code c = true.
Proof.
  intros H. apply scan_patterns_true. intros p I.
  destruct (Re.search p c) eqn:E; [|reflexivity]. exfalso.
  unfold dangerous_patterns in I. simpl in I.
  repeat (destruct I as [<-|I];
          [apply lit_search_contains in E; rewrite H in E;
           [discriminate|vm_compute; tauto]|]).
  destruct I.
Qed.

Lemma accepted_without_blocked_words_witness :
  is_safe_code (txtq "result = df[df[`region`] == `East`]") = true.
Proof.
  apply (accepted_without_blocked_words (txtq "result = df[df[`region`] == `East`]")).
  intros w I. unfold blocked_words in I. simpl in I.
  repeat (destruct I as [<-|I]; [reflexivity|]). destruct I.
Defined.

(** X17.  Whichever generator produced it, an expression that the validator
    rejects ends the request with 'Generated code contains unsafe operations'
    and status 500; the interpreter is not consulted and the dataset is left
    as it is. *)
Theorem ask_rejected_code
    (configured : bool) (create : text -> list string -> reply)
    (json_loads : text -> option pyjson) (run_code : interpreter)
    (df : loc) (fr : frame) (h : heap) (q0 c : text) :
  h !! df = Some fr ->
  strip q0 <> [] ->
  generate_pandas_code configured create json_loads (strip q0) (columns fr) = (JStr c, None) ->
  is_safe_code c = false ->
  ask configured create json_loads run_code (Some df) (Some q0) h
  = Some (Error 500 "Generated code contains unsafe operations", h).
Proof.
  intros Hdf Q G U. unfold ask. destruct (strip q0) as [|x q] eqn:E; [congruence|].
  rewrite Hdf, G. cbn [truthy]. now rewrite (execute_unsafe run_code c df h U).
Qed.

Lemma ask_rejected_code_witness :
  ask true (fun _ _ => Content (Some (txtq "{`code`: `import os`}")))
      (fun _ => Some (JObj [(txt "code", JStr (txt "import os"))]))
      Fragment.run_code (Some 0%nat) (Some (txt "list the files")) sample_heap
  = Some (Error 500 "Generated code contains unsafe operations", sample_heap).
Proof.
  apply (ask_rejected_code true _ _ Fragment.run_code 0%nat sample_frame
           sample_heap (txt "list the files") (txt "import os")).
  - reflexivity.
  - vm_compute. discriminate.
  - reflexivity.
  - reflexivity.
Defined.

(** ** The translator on letter case and surrounding white space *)

Lemma lower_idem (s : text) : lower (lower s) = lower s.
Proof.
  unfold lower. rewrite map_map. apply map_ext. intros c. apply lower_char_idem.
Qed.

Lemma lstrip_lower (s : text) : lstrip (lower s) = lower (lstrip s).
Proof.
  induction s as [|c s IH]; simpl; [reflexivity|].
  rewrite is_space_lower_char. destruct (is_space c); [exact IH|reflexivity].
Qed.

Lemma rstrip_lower (s : text) : rstrip (lower s) = lower (rstrip s).
Proof.
  unfold rstrip, lower. rewrite <- map_rev.
  change (map lower_char (rev s)) with (lower (rev s)).
  rewrite lstrip_lower. unfold lower. now rewrite map_rev.
Qed.

Lemma strip_lower (s : text) : strip (lower s) = lower (strip s).
Proof. unfold strip. now rewrite lstrip_lower, rstrip_lower. Qed.

(** X18.  The translation depends neither on the letter case of the query
    nor on white space around it: the lower-cased query and the stripped
    query get the translation of the query. *)
Theorem parse_query_locally_normalised (q : text) (cols : list string) :
  parse_query_locally (lower q) cols = parse_query_locally q cols
  /\ parse_query_locally (strip q) cols = parse_query_locally q cols.
Proof.
  unfold parse_query_locally. split.
  - now rewrite lower_idem.
  - now rewrite <- strip_lower, strip_idem.
Qed.

(** X19.  When the remote reply decodes to a value that is not an object:
    a number, a boolean or null makes the membership test raise, and a list
    or string that holds 'code' makes the subscript raise, so the coordinator
    falls back to the local translator; a list or string that does not hold
    'code' gives the missing-field error. *)
Theorem generate_pandas_code_not_an_object
    (create : text -> list string -> reply) (json_loads : text -> option pyjson)
    (q content : text) (cols : list string) (r : pyjson) :
  create q cols = Content (Some content) ->
  json_loads content = Some r ->
  generate_pandas_code true create json_loads q cols
  = match r with
    | JObj items =>
        match dict_get (txt "code") items with
        | Some c => (c, None)
        | None => (JNull, Some "OpenAI response does not contain 'code' field")
        end
    | JArr items =>
        if existsb is_code_str items
        then (JStr (fst (parse_query_locally q cols)), None)
        else (JNull, Some "OpenAI response does not contain 'code' field")
    | JStr s =>
        if contains s (txt "code")
        then (JStr (fst (parse_query_locally q cols)), None)
        else (JNull, Some "OpenAI response does not contain 'code' field")
    | JNull | JBool _ | JNum _ => (JStr (fst (parse_query_locally q cols)), None)
    end.
Proof.
  intros C J. unfold generate_pandas_code. simpl negb. cbv iota. rewrite C, J.
  destruct r as [|b|n|s|items|items]; unfold code_in, code_of;
    try (rewrite fallback_code; reflexivity).
  destruct (dict_get (txt "code") items); reflexivity.
Qed.

Lemma generate_pandas_code_not_an_object_witness :
  generate_pandas_code true (fun _ _ => Content (Some (txt "5"))) (fun _ => Some (JNum (txt "5")))
                       (txt "count records") []
  = (JStr (txt "result = len(df)"), None).
Proof.
  apply (generate_pandas_code_not_an_object (fun _ _ => Content (Some (txt "5")))
           (fun _ => Some (JNum (txt "5"))) (txt "count records") (txt "5") []
           (JNum (txt "5"))); reflexivity.
Defined.
